(** * Newsmartest: a credit-based promotion bot

    A shallow embedding of [database.py] and of the handlers of
    [handlers.py] that move credits, budgets, claims and quotas, together
    with the properties the specification states about them.

    Conventions of the embedding.
    - A table with a primary key is a finite map from the key to the row
      ([gmap]); [claimed_promos], whose primary key is the whole row, is a
      finite set of pairs ([gset]).
    - An [INTEGER] column is a [Z].  SQLite stores 64-bit integers; the
      bound matters where a Python integer is handed to SQLite as a query
      parameter (the [sqlite3] binding raises [OverflowError] outside the
      64-bit range), and that check is part of the model.
    - [ORDER BY RANDOM()] is driven by an explicit list of draws, so that
      every function stays executable and every statement holds for every
      outcome of the random source.
    - Python text is a string of characters with code points below 256
      (among them [int()] knows no digits but [0]..[9]); the messages the
      bot sends are terms of an inductive type, one constructor per
      template.
    - A handler is a function of a world (database, per-flow scratch data,
      trace of transport calls) returning the new world and either a
      value or the exception that escaped. *)

From Stdlib Require Import ZArith String Ascii List Bool Lia.
From Stdlib Require Import DecimalString DecimalPos DecimalZ.
From stdpp Require Import base option list gmap sets strings.
From stdpp Require Import sorting.

Local Open Scope string_scope.
Local Open Scope Z_scope.

(* ===================================================================== *)
(** * Python primitives used by the handlers *)
(* ===================================================================== *)

Module Py.

(** The exceptions that occur in the modelled code. *)
Inductive exn : Type :=
  | ValueError
  | TypeError
  | KeyError
  | AttributeError
  | OverflowError
  | TelegramError.

(** Characters [int()] strips around a number: [\t \n \v \f \r] and the
    space, and the two further white-space characters below 256, the next
    line control [\x85] and the no-break space [\xa0].  (The separators
    [\x1c]..[\x1f], which [str.strip] removes, are not accepted by
    [int()].) *)
Definition is_space (c : ascii) : bool :=
  let n := nat_of_ascii c in
  ((9 <=? n)%nat && (n <=? 13)%nat) || (n =? 32)%nat
  || (n =? 133)%nat || (n =? 160)%nat.

Definition is_digit (c : ascii) : bool :=
  let n := nat_of_ascii c in (48 <=? n)%nat && (n <=? 57)%nat.

Definition digit_val (c : ascii) : Z := Z.of_nat (nat_of_ascii c) - 48.

Fixpoint lstrip (s : string) : string :=
  match s with
  | String c s' => if is_space c then lstrip s' else s
  | EmptyString => EmptyString
  end.

Fixpoint rstrip (s : string) : string :=
  match s with
  | String c s' =>
      match rstrip s' with
      | EmptyString => if is_space c then EmptyString else String c EmptyString
      | r => String c r
      end
  | EmptyString => EmptyString
  end.

Definition strip (s : string) : string := rstrip (lstrip s).

(** The digits of a decimal literal as [int()] accepts them: a digit,
    then digits each optionally preceded by one underscore.  [prev] tells
    whether the previous character was a digit; the result is the value
    and the number of digits read. *)
Fixpoint int_digits (prev : bool) (acc : Z) (n : nat) (s : string)
  : option (Z * nat) :=
  match s with
  | EmptyString => if prev then Some (acc, n) else None
  | String c s' =>
      if is_digit c then int_digits true (10 * acc + digit_val c) (S n) s'
      else if Ascii.eqb c "_"%char
           then (if prev then int_digits false acc n s' else None)
           else None
  end.

(** [int(s)] for a string and base 10.  [None] stands for [ValueError].
    [max_str_digits] is [sys.get_int_max_str_digits()]: 0 switches the
    limit off (as it is in interpreters older than 3.11), 4300 is the
    default since. *)
Definition int (max_str_digits : nat) (s : string) : option Z :=
  let t := strip s in
  let '(neg, body) :=
    match t with
    | String "+" r => (false, r)
    | String "-" r => (true, r)
    | _ => (false, t)
    end in
  match int_digits false 0 0 body with
  | Some (v, n) =>
      if (0 <? max_str_digits)%nat && (max_str_digits <? n)%nat then None
      else Some (if neg then - v else v)
  | None => None
  end.

(** [str(z)], as an f-string formats an integer: the decimal digits,
    after a minus sign for a negative number.  [None] stands for the
    [ValueError] of a number with more digits than the limit allows. *)
Definition str (max_str_digits : nat) (z : Z) : option string :=
  let d := Z.to_int z in
  let digits := match d with
                | Decimal.Pos u | Decimal.Neg u => Decimal.nb_digits u
                end in
  if (0 <? max_str_digits)%nat && (max_str_digits <? digits)%nat then None
  else Some (NilZero.string_of_int d).

(** [s.split(sep)] for a one-character separator: never empty, one more
    field than there are separators. *)
Fixpoint split (sep : ascii) (s : string) : list string :=
  match s with
  | EmptyString => [EmptyString]
  | String c s' =>
      if Ascii.eqb c sep then EmptyString :: split sep s'
      else match split sep s' with
           | w :: ws => String c w :: ws
           | [] => [String c EmptyString]
           end
  end.

(** [s.startswith(p)]. *)
Definition startswith (s p : string) : bool := String.prefix p s.

(** [math.ceil(count / 10)].  Python divides in floating point and rounds
    the quotient up; for [|count| < 2^49] the float quotient is close
    enough to the rational one for the result to be the exact ceiling,
    which is what this definition computes. *)
Definition ceil_div10 (count : Z) : Z := - ((- count) / 10).

(** Truthiness of an optional integer ([None] and [0] are false) and of
    an optional string ([None] and the empty string are false). *)
Definition truthy_int (o : option Z) : bool :=
  match o with Some z => negb (Z.eqb z 0) | None => false end.

Definition truthy_str (o : option string) : bool :=
  match o with Some EmptyString => false | Some _ => true | None => false end.

End Py.

(* ===================================================================== *)
(** * database.py *)
(* ===================================================================== *)

(** ** Schema *)

(** A row of [users]; the key [user_id] is the key of the map. *)
Record User : Type := mkUser {
  username : option string;
  credits : Z;
  referral_credits : Z;
  inviter_id : option Z;
  is_premium : bool;
  premium_expiry : option Z;
  is_banned : bool;
  daily_promo_runs : Z;
  image_broadcasts_left : Z;
  normal_promo_text : option string;
  normal_promo_url : option string;
  normal_promo_chat_id : option Z;
  normal_promo_message_id : option Z;
  force_join_channel_id : option Z;
  clicks_received : Z
}.

(** A row of [groups]; the key is [group_id]. *)
Record Group : Type := mkGroup {
  added_by_user_id : Z;
  is_admin : bool
}.

(** A row of [promotions]; the key is the auto-assigned [promo_id]. *)
Record Promotion : Type := mkPromotion {
  promoter_user_id : Z;
  promo_type : string;
  channel_id : option Z;
  promo_text : option string;
  promo_url : option string;
  budget : Z;
  promo_chat_id : option Z;
  promo_message_id : option Z
}.

(** The database file.  [promo_seq] is the entry of [sqlite_sequence]
    that [AUTOINCREMENT] keeps for [promotions]. *)
Record DB : Type := mkDB {
  users : gmap Z User;
  groups : gmap Z Group;
  promotions : gmap Z Promotion;
  promo_seq : Z;
  claimed_promos : gset (Z * Z);
  feature_flags : gmap string bool
}.

(** Column updates. *)
Definition set_credits (v : Z) (u : User) : User :=
  mkUser (username u) v (referral_credits u) (inviter_id u) (is_premium u)
    (premium_expiry u) (is_banned u) (daily_promo_runs u)
    (image_broadcasts_left u) (normal_promo_text u) (normal_promo_url u)
    (normal_promo_chat_id u) (normal_promo_message_id u)
    (force_join_channel_id u) (clicks_received u).

Definition set_referral_credits (v : Z) (u : User) : User :=
  mkUser (username u) (credits u) v (inviter_id u) (is_premium u)
    (premium_expiry u) (is_banned u) (daily_promo_runs u)
    (image_broadcasts_left u) (normal_promo_text u) (normal_promo_url u)
    (normal_promo_chat_id u) (normal_promo_message_id u)
    (force_join_channel_id u) (clicks_received u).

Definition set_daily_promo_runs (v : Z) (u : User) : User :=
  mkUser (username u) (credits u) (referral_credits u) (inviter_id u)
    (is_premium u) (premium_expiry u) (is_banned u) v
    (image_broadcasts_left u) (normal_promo_text u) (normal_promo_url u)
    (normal_promo_chat_id u) (normal_promo_message_id u)
    (force_join_channel_id u) (clicks_received u).

Definition set_image_broadcasts_left (v : Z) (u : User) : User :=
  mkUser (username u) (credits u) (referral_credits u) (inviter_id u)
    (is_premium u) (premium_expiry u) (is_banned u) (daily_promo_runs u)
    v (normal_promo_text u) (normal_promo_url u)
    (normal_promo_chat_id u) (normal_promo_message_id u)
    (force_join_channel_id u) (clicks_received u).

Definition set_clicks_received (v : Z) (u : User) : User :=
  mkUser (username u) (credits u) (referral_credits u) (inviter_id u)
    (is_premium u) (premium_expiry u) (is_banned u) (daily_promo_runs u)
    (image_broadcasts_left u) (normal_promo_text u) (normal_promo_url u)
    (normal_promo_chat_id u) (normal_promo_message_id u)
    (force_join_channel_id u) v.

Definition set_budget (v : Z) (p : Promotion) : Promotion :=
  mkPromotion (promoter_user_id p) (promo_type p) (channel_id p)
    (promo_text p) (promo_url p) v (promo_chat_id p) (promo_message_id p).

Definition set_users (m : gmap Z User) (d : DB) : DB :=
  mkDB m (groups d) (promotions d) (promo_seq d) (claimed_promos d)
    (feature_flags d).

Definition set_promotions (m : gmap Z Promotion) (seq : Z) (d : DB) : DB :=
  mkDB (users d) (groups d) m seq (claimed_promos d) (feature_flags d).

Definition set_claimed_promos (s : gset (Z * Z)) (d : DB) : DB :=
  mkDB (users d) (groups d) (promotions d) (promo_seq d) s (feature_flags d).

(** The row [INSERT INTO users (user_id, username, inviter_id)] creates:
    every other column takes its [DEFAULT]. *)
Definition new_user (uname : option string) (inviter : option Z) : User :=
  mkUser uname 5 0 inviter false None false 2 100 None None None None None 0.

(** ** Query helpers *)

(** [ORDER BY RANDOM()]: the rows in an order chosen by the random
    source.  Each draw picks, among the rows not yet emitted, the one
    that comes next; when the draws run out the remaining rows keep
    their order. *)
Fixpoint order_by_random {A : Type} (draws : list nat) (l : list A) : list A :=
  match draws with
  | [] => l
  | d :: ds =>
      match l !! (d mod length l)%nat with
      | Some x => x :: order_by_random ds (delete (d mod length l)%nat l)
      | None => l
      end
  end.

(** [LIMIT n]: the first [n] rows; SQLite reads a negative [n] as "no
    limit". *)
Definition sql_limit {A : Type} (n : Z) (l : list A) : list A :=
  if n <? 0 then l else take (Z.to_nat n) l.

(** ** User management *)

Definition add_user (user_id : Z) (uname : option string)
    (inviter : option Z) (d : DB) : DB :=
  match users d !! user_id with
  | Some _ => d
  | None => set_users (<[user_id := new_user uname inviter]> (users d)) d
  end.

Definition get_user (user_id : Z) (d : DB) : option User :=
  users d !! user_id.

Definition update_user_credits (user_id amount : Z) (d : DB) : DB :=
  set_users (alter (fun u => set_credits (credits u + amount) u) user_id (users d)) d.

Definition update_referral_credits (user_id amount : Z) (d : DB) : DB :=
  set_users
    (alter (fun u => set_referral_credits (referral_credits u + amount) u)
       user_id (users d)) d.

Definition use_promo_run (user_id : Z) (d : DB) : DB :=
  set_users
    (alter (fun u => if 0 <? daily_promo_runs u
                     then set_daily_promo_runs (daily_promo_runs u - 1) u
                     else u)
       user_id (users d)) d.

Definition use_image_broadcast_run (user_id count : Z) (d : DB) : DB :=
  set_users
    (alter (fun u => set_image_broadcasts_left (image_broadcasts_left u - count) u)
       user_id (users d)) d.

(** The rows [WHERE user_id != ? AND is_banned = FALSE] keeps. *)
Definition broadcast_eligible (exclude_user_id : Z) (row : Z * User) : bool :=
  negb (Z.eqb row.1 exclude_user_id) && negb (is_banned row.2).

Definition get_random_users_for_broadcast (draws : list nat)
    (exclude_user_id limit : Z) (d : DB) : list Z :=
  fst <$> sql_limit limit
    (order_by_random draws
       (map_to_list (filter (fun row => broadcast_eligible exclude_user_id row) (users d)))).

(** ** Promotion management *)

(** The rowid [AUTOINCREMENT] assigns: one more than the largest rowid
    the table has ever held. *)
Definition next_promo_id (d : DB) : Z :=
  1 + map_fold (fun k _ acc => Z.max k acc) (promo_seq d) (promotions d).

Definition add_promotion (user_id : Z) (ptype : string) (bud : Z)
    (chan : option Z) (text url : option string) (chat_id message_id : option Z)
    (d : DB) : DB :=
  let pid := next_promo_id d in
  set_promotions
    (<[pid := mkPromotion user_id ptype chan text url bud chat_id message_id]>
       (promotions d))
    pid d.

(** The columns [get_random_promotion] selects. *)
Record PromoRow : Type := mkPromoRow {
  row_promo_id : Z;
  row_promoter_user_id : Z;
  row_promo_type : string;
  row_channel_id : option Z;
  row_promo_text : option string;
  row_promo_url : option string;
  row_promo_chat_id : option Z;
  row_promo_message_id : option Z
}.

Definition promo_row (row : Z * Promotion) : PromoRow :=
  mkPromoRow row.1 (promoter_user_id row.2) (promo_type row.2)
    (channel_id row.2) (promo_text row.2) (promo_url row.2)
    (promo_chat_id row.2) (promo_message_id row.2).

Definition has_claimed_promo (user_id promo_id : Z) (d : DB) : bool :=
  bool_decide ((user_id, promo_id) ∈ claimed_promos d).

(** The rows the [WHERE] clause keeps after the anti-join with the
    requesting account's claims. *)
Definition task_eligible (user_id : Z) (d : DB) (row : Z * Promotion) : bool :=
  negb (Z.eqb (promoter_user_id row.2) user_id)
  && negb (has_claimed_promo user_id row.1 d)
  && (0 <? budget row.2).

Definition get_random_promotion (draws : list nat) (user_id : Z) (d : DB)
  : option PromoRow :=
  head (promo_row <$> sql_limit 1
          (order_by_random draws
             (map_to_list (filter (fun row => task_eligible user_id d row) (promotions d))))).

Definition claim_promo (user_id promo_id : Z) (d : DB) : DB :=
  set_claimed_promos ({[ (user_id, promo_id) ]} ∪ claimed_promos d) d.

Definition decrement_promo_budget (promo_id : Z) (d : DB) : DB :=
  set_promotions
    (alter (fun p => if 0 <? budget p then set_budget (budget p - 1) p else p)
       promo_id (promotions d))
    (promo_seq d) d.

Definition increment_clicks_received (user_id : Z) (d : DB) : DB :=
  set_users
    (alter (fun u => set_clicks_received (clicks_received u + 1) u)
       user_id (users d)) d.

(** ** Group management *)

Definition admin_group (row : Z * Group) : bool := is_admin row.2.

Definition get_random_groups (draws : list nat) (limit : Z) (d : DB) : list Z :=
  fst <$> sql_limit limit
    (order_by_random draws
       (map_to_list (filter (fun row => admin_group row) (groups d)))).

(** ** Scheduled job queries *)

Definition execute_daily_reset (d : DB) : DB :=
  let u1 := (fun u => set_credits (credits u + referral_credits u) u) <$> users d in
  let u2 := (fun u => if negb (is_premium u) then set_daily_promo_runs 2 u else u) <$> u1 in
  let u3 := (fun u => if is_premium u then set_daily_promo_runs 5 u else u) <$> u2 in
  set_users u3 d.

(* ===================================================================== *)
(** * The messaging transport and the handler monad *)
(* ===================================================================== *)

(** ** What the bot says *)

(** A Python value kept in the per-flow scratch data or passed on to the
    transport. *)
Inductive pyval : Type :=
  | VInt (z : Z)
  | VStr (s : string)
  | VNone.

#[global] Instance pyval_eq_dec : EqDecision pyval.
Proof. solve_decision. Defined.

(** The texts of [handlers.py], one constructor per template, with the
    values formatted into it. *)
Inductive msg : Type :=
  | MsgBanned                      (* "You are banned from using this bot." *)
  | MsgReferralJoined (uname : option string)
                                   (* "New user @.. joined via your link! .." *)
  | MsgWelcome (first_name : string) (creds referral : Z)
                                   (* "Welcome, ..! .. Balance .. Bonus .." *)
  | MsgAlreadyCompleted            (* "You have already completed this task." *)
  | MsgClaimSuccess (reward : Z)   (* "Success! You've earned .. credit(s)." *)
  | MsgPromoterNormalView          (* "Someone completed your normal promotion! .." *)
  | MsgVerified (reward : Z)       (* "Verified! You've earned .. credits." *)
  | MsgPromoterJoinView            (* "Someone joined your channel from a promotion! .." *)
  | MsgNotJoined                   (* "You haven't joined the channel yet." *)
  | MsgVerifyError                 (* "Error: Could not verify membership. .." *)
  | MsgReportPrompt                (* "Please forward the message you want to report. .." *)
  | MsgValidNumber                 (* "Please send a valid number." *)
  | MsgInvalidAmount (max : Z)     (* "Invalid amount. Min: 1, Max: ..." *)
  | MsgPromotionCreated (bud : Z)  (* "Promotion created! .. credits spent." *)
  | MsgSendValidNumber             (* "Send a valid number." *)
  | MsgMustBePositive              (* "Must be positive." *)
  | MsgOnlyBroadcastTo (left : Z)  (* "You can only broadcast to .. more users today." *)
  | MsgInsufficientFunds (cost creds : Z)
                                   (* "Insufficient funds. This costs .. but you have .." *)
  | MsgStartingBroadcast           (* "Starting broadcast..." *)
  | MsgBroadcastComplete (s f cost : Z)
                                   (* "Broadcast complete! Sent to .. Failed .. Cost .." *)
  | MsgSomethingWrong              (* "Something went wrong. Please try again." *)
  | MsgNoGroups                    (* "No available groups for promotion right now. .." *)
  | MsgSending (n : nat)           (* "Sending... .. sent to .. groups." *)
  | MsgPromotionSent (s f runs : Z)
                                   (* "Promotion Sent! .. sent to .. Failed .. runs left" *)
  | MsgText (t : option string).   (* a stored promotion text, sent as it is *)

(** The calls to the Bot API; keyboards are left out except for the URL
    of the link button a group share attaches. *)
Inductive call : Type :=
  | AnswerCallback (text : option msg) (show_alert : bool)
  | EditMessageText (m : msg)
  | ReplyText (m : msg)
  | SendMessage (chat_id : Z) (m : msg) (button_url : option string)
  | CopyMessage (chat_id : Z) (from_chat_id message_id : pyval)
  | EditMessageReplyMarkup (chat_id message_id : Z) (button_url : option string)
  | GetChatMember (chat_id user_id : Z).

(** The records the handlers write to the log.  ([start] skips its
    record when the error text says that the message was not modified;
    the transport of the model carries no error text, so the record stands
    for either case.) *)
Inductive log_record : Type :=
  | LogPromoterNotify (promoter_id : Z)
  | LogPremiumBroadcastFail (target_id : Z)
  | LogGroupShareFail (group_id : Z)
  | LogStartEdit.

(** What a handler leaves behind besides the database: the calls it
    made (delivered or not), the log records and the pauses, oldest
    first. *)
Inductive event : Type :=
  | Called (c : call)
  | Logged (r : log_record)
  | Slept (ms : nat).

(** ** The incoming update *)

Record TgUser : Type := mkTgUser {
  tg_id : Z;
  tg_username : option string;
  first_name : string
}.

Inductive payload : Type :=
  | Message (text : string) (chat_id message_id : Z)
  | CallbackQuery (data : string).

(** [args] is [context.args]: the words after a command, empty (or
    absent) otherwise. *)
Record Update : Type := mkUpdate {
  effective_user : TgUser;
  chat_is_private : bool;
  content : payload;
  args : list string
}.

(** ** Worlds and handlers *)

Record World : Type := mkWorld {
  w_db : DB;
  user_data : gmap string pyval;
  trace : list event
}.

Inductive result (A : Type) : Type :=
  | Ok (a : A)
  | Raise (e : Py.exn).
Arguments Ok {A} a.
Arguments Raise {A} e.

Definition M (A : Type) : Type := World -> World * result A.

#[global] Instance M_ret : MRet M := fun A a w => (w, Ok a).

#[global] Instance M_bind : MBind M := fun A B f m w =>
  match m w with
  | (w', Ok a) => f a w'
  | (w', Raise e) => (w', Raise e)
  end.

Definition raise {A : Type} (e : Py.exn) : M A := fun w => (w, Raise e).

(** [try: m except TelegramError: h]. *)
Definition except_telegram {A : Type} (m h : M A) : M A := fun w =>
  match m w with
  | (w', Raise Py.TelegramError) => h w'
  | r => r
  end.

Definition emit (e : event) : M unit := fun w =>
  (mkWorld (w_db w) (user_data w) (trace w ++ [e]), Ok tt).

(** A statement that writes. *)
Definition db_exec (f : DB -> DB) : M unit := fun w =>
  (mkWorld (f (w_db w)) (user_data w) (trace w), Ok tt).

(** A statement that reads. *)
Definition db_query {A : Type} (f : DB -> A) : M A := fun w => (w, Ok (f (w_db w))).

(** The [sqlite3] binding of an integer parameter that was decoded from
    text.  (Identifiers that Telegram supplies are 64-bit by the Bot API
    and are not checked again.) *)
Definition sqlite_int (z : Z) : bool := (- 2 ^ 63 <=? z) && (z <? 2 ^ 63).

Definition bind_param (z : Z) : M unit :=
  if sqlite_int z then mret tt else raise Py.OverflowError.

(** [context.user_data[key]], [context.user_data[key] = v] and
    [context.user_data.clear()]. *)
Definition user_data_get (key : string) : M pyval := fun w =>
  match user_data w !! key with
  | Some v => (w, Ok v)
  | None => (w, Raise Py.KeyError)
  end.

Definition user_data_set (key : string) (v : pyval) : M unit := fun w =>
  (mkWorld (w_db w) (<[key := v]> (user_data w)) (trace w), Ok tt).

Definition user_data_clear : M unit := fun w =>
  (mkWorld (w_db w) ∅ (trace w), Ok tt).

(** [user[...]] on the result of [get_user]: [None] is not subscriptable. *)
Definition subscript {A : Type} (o : option A) : M A :=
  match o with
  | Some a => mret a
  | None => raise Py.TypeError
  end.

(** What lies outside the handlers: the transport, the random source of
    the one [ORDER BY RANDOM()] query a handler makes, the interpreter's
    digit limit, and the handlers of the buttons this development does
    not look into. *)
Record Env : Type := mkEnv {
  transport : call -> option Z;
  member_status : Z -> Z -> option string;
  random : list nat;
  int_max_str_digits : nat;
  menu_action : string -> Update -> M unit;
  toggle_flag : string -> Update -> M unit
}.

(** One call to the Bot API: recorded, then delivered (with the id of the
    message it produced) or failed with [TelegramError]. *)
Definition tg (env : Env) (c : call) : M Z := fun w =>
  let w' := mkWorld (w_db w) (user_data w) (trace w ++ [Called c]) in
  match transport env c with
  | Some mid => (w', Ok mid)
  | None => (w', Raise Py.TelegramError)
  end.

Definition get_chat_member (env : Env) (chat user : Z) : M string := fun w =>
  let w' := mkWorld (w_db w) (user_data w) (trace w ++ [Called (GetChatMember chat user)]) in
  match member_status env chat user with
  | Some st => (w', Ok st)
  | None => (w', Raise Py.TelegramError)
  end.

(** Conversation states. *)
Definition AWAIT_BUDGET : Z := 3.
Definition AWAIT_BROADCAST_COUNT : Z := 5.
Definition END : Z := -1.

(* ===================================================================== *)
(** * handlers.py *)
(* ===================================================================== *)

Definition uid (upd : Update) : Z := tg_id (effective_user upd).

(** [update.message.reply_text], which needs a message. *)
Definition reply_text (env : Env) (upd : Update) (m : msg) : M unit :=
  match content upd with
  | Message _ _ _ => tg env (ReplyText m) ;; mret tt
  | CallbackQuery _ => raise Py.AttributeError
  end.

(** ** check_user *)

(** The referral part: the inviter named by the start parameter, after
    the bonus it may have earned. *)
Definition referral (env : Env) (upd : Update) : M (option Z) :=
  match args upd with
  | a :: _ =>
      if chat_is_private upd then
        match Py.int (int_max_str_digits env) a with
        | None => mret None
        | Some inviter =>
            if bool_decide (inviter ≠ uid upd) then
              bind_param inviter ;;
              db_exec (update_referral_credits inviter 2) ;;
              except_telegram
                (tg env (SendMessage inviter
                           (MsgReferralJoined (tg_username (effective_user upd))) None) ;;
                 mret tt)
                (mret tt) ;;
              mret (Some inviter)
            else mret (Some inviter)
        end
      else mret None
  | [] => mret None
  end.

Definition check_user (env : Env) (upd : Update) : M bool :=
  db_user ← db_query (get_user (uid upd)) ;
  if match db_user with Some u => is_banned u | None => false end then
    match content upd with
    | Message _ _ _ => tg env (ReplyText MsgBanned) ;; mret false
    | CallbackQuery _ => tg env (AnswerCallback (Some MsgBanned) true) ;; mret false
    end
  else
    match db_user with
    | Some _ => mret true
    | None =>
        inviter ← referral env upd ;
        db_exec (add_user (uid upd) (tg_username (effective_user upd)) inviter) ;;
        mret true
    end.

(** ** start *)

Definition start (env : Env) (upd : Update) : M unit :=
  ok ← match content upd with
       | Message _ _ _ => check_user env upd
       | CallbackQuery _ => mret true
       end ;
  if negb ok then mret tt
  else
    db_user ← db_query (get_user (uid upd)) ;
    db_user ← match db_user with
              | Some u => mret (Some u)
              | None =>
                  db_exec (add_user (uid upd) (tg_username (effective_user upd)) None) ;;
                  db_query (get_user (uid upd))
              end ;
    u ← subscript db_user ;
    let welcome := MsgWelcome (first_name (effective_user upd))
                     (credits u) (referral_credits u) in
    match content upd with
    | CallbackQuery _ =>
        except_telegram (tg env (EditMessageText welcome) ;; mret tt)
                        (emit (Logged LogStartEdit))
    | Message _ _ _ => tg env (ReplyText welcome) ;; mret tt
    end.

(** ** The claim and verify buttons *)

(** The reward of a claim: doubled for a premium account; an account
    without a row counts as not premium. *)
Definition reward_of (base : Z) (db_user : option User) : Z :=
  match db_user with
  | Some u => if is_premium u then 2 * base else base
  | None => base
  end.

Definition notify_promoter (env : Env) (promoter_id : Z) (m : msg) : M unit :=
  except_telegram (tg env (SendMessage promoter_id m None) ;; mret tt)
                  (emit (Logged (LogPromoterNotify promoter_id))).

(** [int(s)] inside a handler. *)
Definition int_of (env : Env) (s : string) : M Z :=
  match Py.int (int_max_str_digits env) s with
  | Some z => mret z
  | None => raise Py.ValueError
  end.

Definition handle_claim_promo (env : Env) (upd : Update) (data : string) : M unit :=
  match Py.split "_" data with
  | [_; promo_id_str; promoter_id_str] =>
      promo_id ← int_of env promo_id_str ;
      promoter_id ← int_of env promoter_id_str ;
      bind_param promo_id ;;
      claimed ← db_query (has_claimed_promo (uid upd) promo_id) ;
      if claimed : bool then
        tg env (AnswerCallback (Some MsgAlreadyCompleted) true) ;; mret tt
      else
        db_exec (claim_promo (uid upd) promo_id) ;;
        db_exec (decrement_promo_budget promo_id) ;;
        db_user ← db_query (get_user (uid upd)) ;
        let reward := reward_of 1 db_user in
        db_exec (update_user_credits (uid upd) reward) ;;
        bind_param promoter_id ;;
        db_exec (increment_clicks_received promoter_id) ;;
        tg env (EditMessageText (MsgClaimSuccess reward)) ;;
        notify_promoter env promoter_id MsgPromoterNormalView
  | _ => raise Py.ValueError
  end.

Definition is_member (status : string) : bool :=
  bool_decide (status ∈ ["member"; "administrator"; "creator"]).

Definition handle_verify_promo (env : Env) (upd : Update) (data : string) : M unit :=
  match Py.split "_" data with
  | [_; promo_id_str; channel_id_str; promoter_id_str] =>
      promo_id ← int_of env promo_id_str ;
      channel ← int_of env channel_id_str ;
      promoter_id ← int_of env promoter_id_str ;
      bind_param promo_id ;;
      claimed ← db_query (has_claimed_promo (uid upd) promo_id) ;
      if claimed : bool then
        tg env (AnswerCallback (Some MsgAlreadyCompleted) true) ;; mret tt
      else
        except_telegram
          (status ← get_chat_member env channel (uid upd) ;
           if is_member status then
             db_exec (claim_promo (uid upd) promo_id) ;;
             db_exec (decrement_promo_budget promo_id) ;;
             db_user ← db_query (get_user (uid upd)) ;
             let reward := reward_of 2 db_user in
             db_exec (update_user_credits (uid upd) reward) ;;
             bind_param promoter_id ;;
             db_exec (increment_clicks_received promoter_id) ;;
             tg env (EditMessageText (MsgVerified reward)) ;;
             notify_promoter env promoter_id MsgPromoterJoinView
           else
             tg env (AnswerCallback (Some MsgNotJoined) true) ;; mret tt)
          (tg env (EditMessageText MsgVerifyError) ;; mret tt)
  | _ => raise Py.ValueError
  end.

Definition handle_report_start (env : Env) (upd : Update) (data : string) : M unit :=
  match Py.split "_" data with
  | [_; promoter_id] =>
      user_data_set "promoter_to_report" (VStr promoter_id) ;;
      tg env (EditMessageText MsgReportPrompt) ;; mret tt
  | _ => raise Py.ValueError
  end.

(** ** Creating a promotion *)

Definition get_promotion_budget (env : Env) (upd : Update) : M Z :=
  match content upd with
  | CallbackQuery _ => raise Py.AttributeError
  | Message text _ _ =>
      match Py.int (int_max_str_digits env) text with
      | None => reply_text env upd MsgValidNumber ;; mret AWAIT_BUDGET
      | Some bud =>
          user ← db_query (get_user (uid upd)) ;
          u ← subscript user ;
          if negb ((0 <? bud) && (bud <=? credits u)) then
            reply_text env upd (MsgInvalidAmount (credits u)) ;; mret AWAIT_BUDGET
          else
            ptype ← user_data_get "promo_type_to_create" ;
            bind_param bud ;;
            (if bool_decide (ptype = VStr "normal") then
               db_exec (add_promotion (uid upd) "normal" bud None
                          (normal_promo_text u) (normal_promo_url u)
                          (normal_promo_chat_id u) (normal_promo_message_id u))
             else
               db_exec (add_promotion (uid upd) "force_join" bud
                          (force_join_channel_id u) None None None None)) ;;
            db_exec (update_user_credits (uid upd) (- bud)) ;;
            reply_text env upd (MsgPromotionCreated bud) ;;
            user_data_clear ;;
            start env upd ;;
            mret END
      end
  end.

(** ** Fan-out *)

(** The delivery loop both broadcasts run:
    [for t in targets: try: send(t); s += 1; sleep(pause)
     except TelegramError: f += 1; logger.warning(..)]. *)
Fixpoint fan_out (send : Z -> M unit) (pause : nat) (failure : Z -> log_record)
    (targets : list Z) (s f : Z) : M (Z * Z) :=
  match targets with
  | [] => mret (s, f)
  | t :: rest =>
      sf ← except_telegram
             (send t ;; emit (Slept pause) ;; mret (s + 1, f))
             (emit (Logged (failure t)) ;; mret (s, f + 1)) ;
      fan_out send pause failure rest sf.1 sf.2
  end.

(** The send of the premium image broadcast. *)
Definition copy_to_user (env : Env) (from_chat message : pyval) (target : Z) : M unit :=
  tg env (CopyMessage target from_chat message) ;; mret tt.

Definition get_broadcast_count (env : Env) (upd : Update) : M Z :=
  match content upd with
  | CallbackQuery _ => raise Py.AttributeError
  | Message text _ _ =>
      match Py.int (int_max_str_digits env) text with
      | None => reply_text env upd MsgSendValidNumber ;; mret AWAIT_BROADCAST_COUNT
      | Some count =>
          user ← db_query (get_user (uid upd)) ;
          let cost := Py.ceil_div10 count in
          if count <=? 0 then
            reply_text env upd MsgMustBePositive ;; mret AWAIT_BROADCAST_COUNT
          else
            u ← subscript user ;
            if image_broadcasts_left u <? count then
              reply_text env upd (MsgOnlyBroadcastTo (image_broadcasts_left u)) ;;
              mret AWAIT_BROADCAST_COUNT
            else if credits u <? cost then
              reply_text env upd (MsgInsufficientFunds cost (credits u)) ;;
              mret AWAIT_BROADCAST_COUNT
            else
              reply_text env upd MsgStartingBroadcast ;;
              bind_param count ;;
              target_users ← db_query
                (get_random_users_for_broadcast (random env) (uid upd) count) ;
              from_chat ← user_data_get "broadcast_chat_id" ;
              message ← user_data_get "broadcast_message_id" ;
              sf ← fan_out (copy_to_user env from_chat message) 200
                     LogPremiumBroadcastFail target_users 0 0 ;
              db_exec (use_image_broadcast_run (uid upd) sf.1) ;;
              db_exec (update_user_credits (uid upd) (- cost)) ;;
              reply_text env upd (MsgBroadcastComplete sf.1 sf.2 cost) ;;
              user_data_clear ;;
              start env upd ;;
              mret END
      end
  end.

(** The send of a group share: a copy of the saved message with the link
    button attached afterwards, or the saved text with the button. *)
Definition share_to_group (env : Env) (u : User) (group_id : Z) : M unit :=
  if Py.truthy_int (normal_promo_chat_id u) && Py.truthy_int (normal_promo_message_id u)
  then
    sent ← tg env (CopyMessage group_id
                     (from_option VInt VNone (normal_promo_chat_id u))
                     (from_option VInt VNone (normal_promo_message_id u))) ;
    tg env (EditMessageReplyMarkup group_id sent (normal_promo_url u)) ;;
    mret tt
  else
    tg env (SendMessage group_id (MsgText (normal_promo_text u)) (normal_promo_url u)) ;;
    mret tt.

(** Whether the transport delivers to one target: the outcome of the
    calls [copy_to_user], respectively [share_to_group], makes for it. *)
Definition delivers_copy (env : Env) (from_chat message : pyval) (target : Z) : bool :=
  match transport env (CopyMessage target from_chat message) with
  | Some _ => true
  | None => false
  end.

Definition delivers_share (env : Env) (u : User) (group_id : Z) : bool :=
  if Py.truthy_int (normal_promo_chat_id u) && Py.truthy_int (normal_promo_message_id u)
  then
    match transport env (CopyMessage group_id
                           (from_option VInt VNone (normal_promo_chat_id u))
                           (from_option VInt VNone (normal_promo_message_id u))) with
    | Some sent =>
        match transport env (EditMessageReplyMarkup group_id sent (normal_promo_url u)) with
        | Some _ => true
        | None => false
        end
    | None => false
    end
  else
    match transport env (SendMessage group_id (MsgText (normal_promo_text u))
                           (normal_promo_url u)) with
    | Some _ => true
    | None => false
    end.

(** A notice goes to the pressed button's message or, for a command, as
    a reply. *)
Definition notice (env : Env) (upd : Update) (m : msg) : M unit :=
  match content upd with
  | CallbackQuery _ => tg env (EditMessageText m) ;; mret tt
  | Message _ _ _ => tg env (ReplyText m) ;; mret tt
  end.

Definition execute_group_share (env : Env) (upd : Update) : M unit :=
  user ← db_query (get_user (uid upd)) ;
  match user with
  | None => notice env upd MsgSomethingWrong
  | Some u =>
      if (daily_promo_runs u <=? 0) || negb (Py.truthy_str (normal_promo_url u)) then
        notice env upd MsgSomethingWrong
      else
        let limit := if is_premium u then 10 else 5 in
        grps ← db_query (get_random_groups (random env) limit) ;
        match grps with
        | [] =>
            match content upd with
            | CallbackQuery _ =>
                tg env (AnswerCallback (Some MsgNoGroups) true) ;; start env upd
            | Message _ _ _ => tg env (ReplyText MsgNoGroups) ;; mret tt
            end
        | _ :: _ =>
            notice env upd (MsgSending (length grps)) ;;
            sf ← fan_out (share_to_group env u) 500 LogGroupShareFail grps 0 0 ;
            db_exec (use_promo_run (uid upd)) ;;
            updated_user ← db_query (get_user (uid upd)) ;
            u' ← subscript updated_user ;
            notice env upd (MsgPromotionSent sf.1 sf.2 (daily_promo_runs u'))
        end
  end.

(** A string none of whose characters [int()] strips or [split('_')]
    takes for a separator, as is every formatted number. *)
Fixpoint plain (s : string) : bool :=
  match s with
  | EmptyString => true
  | String c s' => negb (Py.is_space c) && negb (Ascii.eqb c "_") && plain s'
  end.

(** The tokens [tasks] puts on the claim and the verify button:
    [f"claim_{promo_id}_{promoter_id}"] and, for a promotion whose channel
    is set, [f"verify_{promo_id}_{channel_id}_{promoter_id}"]. *)
Definition claim_callback_data (env : Env) (promo_id promoter_id : Z)
  : option string :=
  a ← Py.str (int_max_str_digits env) promo_id ;
  b ← Py.str (int_max_str_digits env) promoter_id ;
  Some ("claim_" ++ a ++ "_" ++ b)%string.

Definition verify_callback_data (env : Env) (promo_id channel promoter_id : Z)
  : option string :=
  a ← Py.str (int_max_str_digits env) promo_id ;
  b ← Py.str (int_max_str_digits env) channel ;
  c ← Py.str (int_max_str_digits env) promoter_id ;
  Some ("verify_" ++ a ++ "_" ++ b ++ "_" ++ c)%string.

(** The typed request a token stands for: the fields the decoders of
    [handle_claim_promo] and [handle_verify_promo] read off it, when there
    are as many as they unpack and each is a number for [int()]. *)
Definition claim_token (env : Env) (data : string) : option (Z * Z) :=
  match Py.split "_" data with
  | [_; promo_id_str; promoter_id_str] =>
      match Py.int (int_max_str_digits env) promo_id_str,
            Py.int (int_max_str_digits env) promoter_id_str with
      | Some promo_id, Some promoter_id => Some (promo_id, promoter_id)
      | _, _ => None
      end
  | _ => None
  end.

Definition verify_token (env : Env) (data : string) : option (Z * Z * Z) :=
  match Py.split "_" data with
  | [_; promo_id_str; channel_id_str; promoter_id_str] =>
      match Py.int (int_max_str_digits env) promo_id_str,
            Py.int (int_max_str_digits env) channel_id_str,
            Py.int (int_max_str_digits env) promoter_id_str with
      | Some promo_id, Some channel, Some promoter_id =>
          Some (promo_id, channel, promoter_id)
      | _, _, _ => None
      end
  | _ => None
  end.

(** ** The button dispatcher *)

(** The keys of [actions] whose handlers are not part of this model. *)
Definition menu_actions : list string :=
  [ "promote_link"; "start_group_share"; "earn_credits"; "referral_link";
    "leaderboard"; "premium_upgrade"; "add_to_group"; "my_account";
    "admin_feature_flags" ].

Definition button_handler (env : Env) (upd : Update) : M unit :=
  match content upd with
  | Message _ _ _ => raise Py.AttributeError
  | CallbackQuery data =>
      tg env (AnswerCallback None false) ;;
      ok ← check_user env upd ;
      if negb ok then mret tt
      else if bool_decide (data ∈ menu_actions) then menu_action env data upd
      else if bool_decide (data = "execute_group_share_final") then
        execute_group_share env upd
      else if bool_decide (data = "back_to_main") || bool_decide (data = "admin_back") then
        start env upd
      else if Py.startswith data "toggle_flag_" then toggle_flag env data upd
      else if Py.startswith data "claim_" then handle_claim_promo env upd data
      else if Py.startswith data "verify_" then handle_verify_promo env upd data
      else if Py.startswith data "report_" then handle_report_start env upd data
      else mret tt
  end.

(* ===================================================================== *)
(** * database.py: the remaining queries *)
(* ===================================================================== *)

Definition set_groups (m : gmap Z Group) (d : DB) : DB :=
  mkDB (users d) m (promotions d) (promo_seq d) (claimed_promos d)
    (feature_flags d).

Definition set_feature_flags (m : gmap string bool) (d : DB) : DB :=
  mkDB (users d) (groups d) (promotions d) (promo_seq d) (claimed_promos d) m.

Definition set_is_banned (v : bool) (u : User) : User :=
  mkUser (username u) (credits u) (referral_credits u) (inviter_id u)
    (is_premium u) (premium_expiry u) v (daily_promo_runs u)
    (image_broadcasts_left u) (normal_promo_text u) (normal_promo_url u)
    (normal_promo_chat_id u) (normal_promo_message_id u)
    (force_join_channel_id u) (clicks_received u).

(** ** User management *)

(** [SELECT user_id FROM users WHERE is_banned = FALSE]; the statement
    has no [ORDER BY], the order of the map stands for the one SQLite
    happens to use. *)
Definition get_all_user_ids (d : DB) : list Z :=
  fst <$> map_to_list (filter (fun row : Z * User => negb (is_banned row.2)) (users d)).

Definition ban_user (user_id : Z) (banned : bool) (d : DB) : DB :=
  set_users (alter (set_is_banned banned) user_id (users d)) d.

(** The days [datetime] can name, as ordinals: 0001-01-01 is day 1 and
    9999-12-31 is day 3652059. *)
Definition date_ok (ordinal : Z) : bool :=
  (1 <=? ordinal) && (ordinal <=? 3652059).

(** [set_premium]: [today] is the ordinal of [datetime.now()]; [None]
    stands for the [OverflowError] of a date that [datetime] cannot
    name, raised before the database is opened. *)
Definition set_premium (today user_id days : Z) (d : DB) : option DB :=
  if date_ok (today + days) then
    Some (set_users
            (alter (fun u =>
                      mkUser (username u) (credits u) (referral_credits u)
                        (inviter_id u) true (Some (today + days)) (is_banned u)
                        5 100 (normal_promo_text u) (normal_promo_url u)
                        (normal_promo_chat_id u) (normal_promo_message_id u)
                        (force_join_channel_id u) (clicks_received u))
               user_id (users d)) d)
  else None.

Definition remove_premium (user_id : Z) (d : DB) : DB :=
  set_users
    (alter (fun u =>
              mkUser (username u) (credits u) (referral_credits u)
                (inviter_id u) false None (is_banned u)
                2 (image_broadcasts_left u) (normal_promo_text u)
                (normal_promo_url u) (normal_promo_chat_id u)
                (normal_promo_message_id u) (force_join_channel_id u)
                (clicks_received u))
       user_id (users d)) d.

(** ** Promotion management *)

Definition set_normal_promo (user_id : Z) (text url : option string)
    (chat_id message_id : option Z) (d : DB) : DB :=
  set_users
    (alter (fun u =>
              mkUser (username u) (credits u) (referral_credits u)
                (inviter_id u) (is_premium u) (premium_expiry u) (is_banned u)
                (daily_promo_runs u) (image_broadcasts_left u) text url
                chat_id message_id (force_join_channel_id u)
                (clicks_received u))
       user_id (users d)) d.

Definition set_force_join_channel (user_id : Z) (channel : option Z) (d : DB) : DB :=
  set_users
    (alter (fun u =>
              mkUser (username u) (credits u) (referral_credits u)
                (inviter_id u) (is_premium u) (premium_expiry u) (is_banned u)
                (daily_promo_runs u) (image_broadcasts_left u)
                (normal_promo_text u) (normal_promo_url u)
                (normal_promo_chat_id u) (normal_promo_message_id u)
                channel (clicks_received u))
       user_id (users d)) d.

(** [ORDER BY clicks_received DESC]: a row comes before the rows with
    no more views than it has. *)
Definition more_views (a b : Z * User) : Prop :=
  clicks_received b.2 <= clicks_received a.2.

#[global] Instance more_views_dec (a b : Z * User) : Decision (more_views a b).
Proof. unfold more_views. apply _. Defined.

(** [get_leaderboard]: the draws settle the order among accounts with
    equally many views, which the statement leaves open. *)
Definition get_leaderboard (draws : list nat) (d : DB) : list (option string * Z) :=
  (fun row : Z * User => (username row.2, clicks_received row.2)) <$>
    sql_limit 10
      (merge_sort more_views
         (order_by_random draws
            (map_to_list
               (filter (fun row : Z * User => 0 < clicks_received row.2) (users d))))).

(** ** Group management *)

(** [INSERT ... ON CONFLICT(group_id) DO UPDATE SET is_admin =
    excluded.is_admin]: a known group keeps the account that added it. *)
Definition add_group (group_id adder : Z) (admin : bool) (d : DB) : DB :=
  match groups d !! group_id with
  | Some g => set_groups (<[group_id := mkGroup (added_by_user_id g) admin]> (groups d)) d
  | None => set_groups (<[group_id := mkGroup adder admin]> (groups d)) d
  end.

Definition get_group (group_id : Z) (d : DB) : option Group :=
  groups d !! group_id.

(** ** Feature flags *)

Definition get_feature_flag (name : string) (d : DB) : bool :=
  match feature_flags d !! name with
  | Some enabled => enabled
  | None => false
  end.

Definition set_feature_flag (name : string) (enabled : bool) (d : DB) : DB :=
  set_feature_flags (alter (fun _ => enabled) name (feature_flags d)) d.

Definition get_all_feature_flags (d : DB) : list (string * bool) :=
  map_to_list (feature_flags d).

(** The flags [initialize_database] seeds. *)
Definition flags : list string :=
  ["group_promotion"; "force_join_promotion"; "premium_image_caption"].

(** [INSERT OR IGNORE INTO feature_flags (name) VALUES (?)]: a new flag
    starts enabled, a known one is left alone. *)
Definition seed_flag (m : gmap string bool) (name : string) : gmap string bool :=
  match m !! name with
  | Some _ => m
  | None => <[name := true]> m
  end.

(** [initialize_database] on the rows of an existing database: the
    [CREATE TABLE IF NOT EXISTS] statements and the column migrations
    keep every row, which leaves the seeding of the flags. *)
Definition initialize_database (d : DB) : DB :=
  set_feature_flags (foldl seed_flag (feature_flags d) flags) d.

(** ** Scheduled job queries *)

Definition execute_weekly_reset (d : DB) : DB :=
  set_users (set_clicks_received 0 <$> users d) d.

Definition reset_all_premium_image_broadcasts (d : DB) : DB :=
  set_users
    ((fun u => if is_premium u then set_image_broadcasts_left 100 u else u)
       <$> users d) d.

(* ===================================================================== *)
(** * jobs.py *)
(* ===================================================================== *)

(** The scheduled jobs; their [logger.info] lines are not recorded. *)
Definition daily_credit_reset : M unit := db_exec execute_daily_reset.
Definition weekly_leaderboard_reset : M unit := db_exec execute_weekly_reset.
Definition reset_image_broadcasts : M unit :=
  db_exec reset_all_premium_image_broadcasts.

(* ===================================================================== *)
(** * Sample data *)
(* ===================================================================== *)

(** Concrete worlds on which the statements below are exercised. *)
Module Sample.

Definition delivers_all : call -> option Z := fun _ => Some 0.

(** A transport on which every copy of a message fails. *)
Definition copies_fail : call -> option Z := fun c =>
  match c with
  | CopyMessage _ _ _ => None
  | _ => Some 0
  end.

Definition no_handler : string -> Update -> M unit := fun _ _ => mret tt.

Definition env : Env :=
  mkEnv delivers_all (fun _ _ => Some "member") [2; 0; 1]%nat 4300
    no_handler no_handler.

Definition env_copies_fail : Env :=
  mkEnv copies_fail (fun _ _ => Some "member") [] 4300 no_handler no_handler.

(** A premium account with balance 10 and referral bonus 2. *)
Definition ann : User :=
  mkUser (Some "ann") 10 2 None true None false 5 100
    (Some "Visit my page") (Some "https://example.org") None None None 0.

Definition bob : User := new_user (Some "bob") None.
Definition cat : User := new_user (Some "cat") (Some 1).

Definition promo : Promotion :=
  mkPromotion 1 "normal" None (Some "Visit my page") (Some "https://example.org")
    3 None None.

Definition db : DB :=
  mkDB {[ 1 := ann; 2 := bob; 3 := cat ]}
       {[ -100 := mkGroup 1 true; -200 := mkGroup 2 true; -300 := mkGroup 2 false ]}
       {[ 1 := promo ]} 1 ∅ ∅.

Definition tg_ann : TgUser := mkTgUser 1 (Some "ann") "Ann".
Definition tg_bob : TgUser := mkTgUser 2 (Some "bob") "Bob".
Definition tg_dan : TgUser := mkTgUser 4 (Some "dan") "Dan".

(** Ann is in the middle of a premium image broadcast. *)
Definition world_broadcast : World :=
  mkWorld db {[ "broadcast_chat_id" := VInt 1; "broadcast_message_id" := VInt 77 ]} [].

Definition world : World := mkWorld db ∅ [].

Definition message (from : TgUser) (text : string) : Update :=
  mkUpdate from true (Message text (tg_id from) 500) [].

Definition button (from : TgUser) (data : string) : Update :=
  mkUpdate from true (CallbackQuery data) [].

(** Dan opens the bot through a referral link carrying [param]. *)
Definition start_with (param : string) : Update :=
  mkUpdate tg_dan true (Message ("/start " ++ param) 4 1) [param].

End Sample.

(* ===================================================================== *)
(** * handlers.py: the bot joins a group *)
(* ===================================================================== *)

(** The service message Telegram sends when members join a chat: the
    chat, the account that added them and the ids of the new members. *)
Record StatusUpdate : Type := mkStatusUpdate {
  group_chat_id : Z;
  group_title : string;
  from_user_id : Z;
  from_user_is_bot : bool;
  from_user_username : option string;
  new_chat_members : list Z
}.

(** The texts [new_group_member] sends. *)
Inductive group_msg : Type :=
  | MsgThanksPromoted   (* "Thanks for promoting me to admin! I'm ready to receive promotions." *)
  | MsgPleasePromote    (* "For me to work, please promote me to admin." *)
  | MsgAdminReward (title : string) (reward : Z)
                        (* "Thanks for making me admin in '..'! You got .. credits .." *)
  | MsgNeedMembers (title : string) (count : Z)
                        (* "Thanks for making me admin in '..'. To receive credits, the
                           group must have over 600 members. Current count: .." *)
  | MsgReady            (* "Hello! I'm ready to receive promotions." *)
  | MsgHelloPromote.    (* "Hello! For me to work, please promote me to admin." *)

Inductive group_call : Type :=
  | GetMe
  | GetBotMember (chat_id bot_id : Z)
  | GetChatMemberCount (chat_id : Z)
  | SendGroupMessage (chat_id : Z) (m : group_msg).

Inductive group_log : Type :=
  | LogAddedByBot (title : string) (by_bot : option string)
  | LogAddedToGroup (title : string) (chat_id user_id : Z)
  | LogReAdded (title : string) (chat_id : Z)
  | LogNewGroupError (chat_id : Z).

Inductive group_event : Type :=
  | GroupCalled (c : group_call)
  | GroupLogged (r : group_log).

(** What the Bot API answers: the bot's own account, its status in a
    chat, the size of a chat, and whether a message is delivered.  A
    missing answer is a [TelegramError]. *)
Record GroupApi : Type := mkGroupApi {
  get_me : option Z;
  get_chat_member_status : Z -> Z -> option string;
  get_chat_member_count : Z -> option Z;
  send_message : Z -> group_msg -> bool
}.

Record GroupWorld : Type := mkGroupWorld {
  gw_db : DB;
  gw_trace : list group_event
}.

Definition GM (A : Type) : Type := GroupWorld -> GroupWorld * result A.

#[global] Instance GM_ret : MRet GM := fun A a w => (w, Ok a).

#[global] Instance GM_bind : MBind GM := fun A B f m w =>
  match m w with
  | (w', Ok a) => f a w'
  | (w', Raise e) => (w', Raise e)
  end.

(** [try: m except TelegramError: h]. *)
Definition group_except_telegram {A : Type} (m h : GM A) : GM A := fun w =>
  match m w with
  | (w', Raise Py.TelegramError) => h w'
  | r => r
  end.

Definition group_log_record (r : group_log) : GM unit := fun w =>
  (mkGroupWorld (gw_db w) (gw_trace w ++ [GroupLogged r]), Ok tt).

Definition group_db_exec (f : DB -> DB) : GM unit := fun w =>
  (mkGroupWorld (f (gw_db w)) (gw_trace w), Ok tt).

Definition group_db_query {A : Type} (f : DB -> A) : GM A := fun w =>
  (w, Ok (f (gw_db w))).

(** One call to the Bot API: recorded, then answered or failed. *)
Definition group_api {A : Type} (c : group_call) (answer : option A) : GM A := fun w =>
  let w' := mkGroupWorld (gw_db w) (gw_trace w ++ [GroupCalled c]) in
  match answer with
  | Some a => (w', Ok a)
  | None => (w', Raise Py.TelegramError)
  end.

Definition group_send (api : GroupApi) (chat_id : Z) (m : group_msg) : GM unit :=
  group_api (SendGroupMessage chat_id m)
    (if send_message api chat_id m then Some tt else None).

(** The reward for a first addition as administrator to a group of more
    than 600 members: [10 if user and user['is_premium'] else 5]. *)
Definition group_reward (user : option User) : Z :=
  if match user with Some u => is_premium u | None => false end then 10 else 5.

Definition new_group_member (api : GroupApi) (upd : StatusUpdate) : GM unit :=
  bot ← group_api GetMe (get_me api) ;
  if negb (bool_decide (bot ∈ new_chat_members upd)) then mret tt
  else if from_user_is_bot upd then
    group_log_record (LogAddedByBot (group_title upd) (from_user_username upd))
  else
    group_log_record
      (LogAddedToGroup (group_title upd) (group_chat_id upd) (from_user_id upd)) ;;
    let adder_user_id := from_user_id upd in
    group_except_telegram
      (existing_group ← group_db_query (get_group (group_chat_id upd)) ;
       status ← group_api (GetBotMember (group_chat_id upd) bot)
                  (get_chat_member_status api (group_chat_id upd) bot) ;
       let admin := bool_decide (status = "administrator") in
       match existing_group with
       | Some g =>
           group_log_record (LogReAdded (group_title upd) (group_chat_id upd)) ;;
           if admin && negb (is_admin g) then
             group_db_exec (add_group (group_chat_id upd) adder_user_id admin) ;;
             group_send api (group_chat_id upd) MsgThanksPromoted
           else if negb admin then
             group_send api (group_chat_id upd) MsgPleasePromote
           else mret tt
       | None =>
           group_db_exec (add_group (group_chat_id upd) adder_user_id admin) ;;
           if admin then
             member_count ← group_api (GetChatMemberCount (group_chat_id upd))
                              (get_chat_member_count api (group_chat_id upd)) ;
             if 600 <? member_count then
               user ← group_db_query (get_user adder_user_id) ;
               let reward := group_reward user in
               group_db_exec (update_user_credits adder_user_id reward) ;;
               group_send api adder_user_id (MsgAdminReward (group_title upd) reward) ;;
               group_send api (group_chat_id upd) MsgReady
             else
               group_send api adder_user_id
                 (MsgNeedMembers (group_title upd) member_count) ;;
               group_send api (group_chat_id upd) MsgReady
           else
             group_send api (group_chat_id upd) MsgHelloPromote
       end)
      (group_log_record (LogNewGroupError (group_chat_id upd))).

(** The handler on a succession of service messages, each with the
    answers the Bot API gives while it is handled; an exception that
    escapes a handler is logged by the dispatcher and the next update is
    handled. *)
Definition new_group_members (events : list (GroupApi * StatusUpdate))
    (w : GroupWorld) : GroupWorld :=
  foldl (fun w0 ev => (new_group_member ev.1 ev.2 w0).1) w events.

Module SampleGroup.

(** The bot is account 900; every call is answered, the bot is an
    administrator everywhere and every chat has 1000 members. *)
Definition api : GroupApi :=
  mkGroupApi (Some 900) (fun _ _ => Some "administrator") (fun _ => Some 1000)
    (fun _ _ => true).

(** Bob adds the bot to a group. *)
Definition added (chat : Z) : StatusUpdate :=
  mkStatusUpdate chat "Readers" 2 false (Some "bob") [900].

Definition world : GroupWorld := mkGroupWorld Sample.db [].

End SampleGroup.

(* ===================================================================== *)
(** * Properties of the queries *)
(* ===================================================================== *)

Section Sampling.
Context {A : Type}.
Implicit Types l : list A.

(** Whatever the draws, [ORDER BY RANDOM()] only reorders. *)
Lemma order_by_random_perm (draws : list nat) l :
  order_by_random draws l ≡ₚ l.
Proof.
  revert l. induction draws as [|d ds IH]; intros l; simpl; [done|].
  destruct (l !! (d mod length l)%nat) as [x|] eqn:Hx; [|done].
  rewrite IH. symmetry. by apply delete_Permutation.
Qed.

Lemma sql_limit_sublist (n : Z) l : sql_limit n l `sublist_of` l.
Proof.
  unfold sql_limit. destruct (n <? 0); [done|]. apply sublist_take.
Qed.

Lemma sql_limit_length (n : Z) l :
  0 <= n -> length (sql_limit n l) = Nat.min (Z.to_nat n) (length l).
Proof.
  intros Hn. unfold sql_limit.
  destruct (Z.ltb_spec n 0); [lia|]. apply length_take.
Qed.

(** A negative [LIMIT] keeps every row. *)
Lemma sql_limit_negative (n : Z) l : n < 0 -> sql_limit n l = l.
Proof. intros Hn. unfold sql_limit. by destruct (Z.ltb_spec n 0); [|lia]. Qed.

(** And every order is the outcome of some draws, so that a statement "for
    all draws" is a statement about every order SQLite may choose. *)
Lemma order_by_random_complete l l' :
  l ≡ₚ l' -> exists draws, order_by_random draws l = l'.
Proof.
  revert l. induction l' as [|x t IH]; intros l Hp.
  - exists []. simpl. by apply Permutation_nil_r.
  - assert (Hx : x ∈ l) by (rewrite Hp; left).
    apply list_elem_of_lookup in Hx as [i Hi].
    pose proof (lookup_lt_Some _ _ _ Hi) as Hlt.
    destruct (IH (delete i l)) as [draws Hdraws].
    { apply (delete_Permutation _ _ _) in Hi. rewrite Hi in Hp.
      by apply Permutation_cons_inv in Hp. }
    exists (i :: draws). simpl.
    rewrite Nat.mod_small by done. by rewrite Hi, Hdraws.
Qed.
End Sampling.

(** The keys a [SELECT key FROM t WHERE P ORDER BY RANDOM() LIMIT n]
  returns: distinct, as many as the limit and the table allow, and each
  the key of a row satisfying [P]. *)
Section RandomKeys.
Context {V : Type} (P : Z * V -> Prop) `{!forall row, Decision (P row)}.
Implicit Types m : gmap Z V.

Lemma random_keys_NoDup draws n m :
  NoDup (fst <$> sql_limit n (order_by_random draws (map_to_list (filter P m)))).
Proof.
  eapply sublist_NoDup; [|apply fmap_sublist, sql_limit_sublist].
  rewrite order_by_random_perm. apply NoDup_fst_map_to_list.
Qed.

Lemma random_keys_length draws n m :
  0 <= n ->
  length (fst <$> sql_limit n (order_by_random draws (map_to_list (filter P m))))
  = Nat.min (Z.to_nat n) (size (filter P m)).
Proof.
  intros Hn. rewrite length_fmap, sql_limit_length by done.
  by rewrite order_by_random_perm, length_map_to_list.
Qed.

Lemma random_rows_elem draws n m k v :
  (k, v) ∈ sql_limit n (order_by_random draws (map_to_list (filter P m))) ->
  m !! k = Some v /\ P (k, v).
Proof.
  intros Hin.
  eapply elem_of_sublist in Hin; [|apply sql_limit_sublist].
  rewrite order_by_random_perm in Hin.
  by apply elem_of_map_to_list, map_lookup_filter_Some in Hin.
Qed.

Lemma random_keys_elem draws n m k :
  k ∈ fst <$> sql_limit n (order_by_random draws (map_to_list (filter P m))) ->
  exists v, m !! k = Some v /\ P (k, v).
Proof.
  intros Hk. apply list_elem_of_fmap in Hk as [[k' v] [-> Hin]].
  exists v. by apply random_rows_elem in Hin.
Qed.
End RandomKeys.

(** ** Budget accounting *)

Lemma set_budget_set_budget (a b : Z) (p : Promotion) :
  set_budget a (set_budget b p) = set_budget a p.
Proof. by destruct p. Qed.

Lemma budget_set_budget (b : Z) (p : Promotion) : budget (set_budget b p) = b.
Proof. done. Qed.

(** One decrement on the row it addresses. *)
Lemma decrement_promo_budget_lookup (d : DB) (pid : Z) (p : Promotion) :
  promotions d !! pid = Some p ->
  promotions (decrement_promo_budget pid d) !! pid
  = Some (if 0 <? budget p then set_budget (budget p - 1) p else p).
Proof. intros Hp. simpl. by rewrite lookup_alter_eq, Hp. Qed.

(** At budget zero (or with no such row) the statement changes nothing. *)
Lemma decrement_promo_budget_floor (d : DB) (pid : Z) :
  (forall p, promotions d !! pid = Some p -> budget p <= 0) ->
  decrement_promo_budget pid d = d.
Proof.
  intros Hz. unfold decrement_promo_budget, set_promotions.
  rewrite alter_id; [by destruct d|].
  intros p Hp. specialize (Hz p Hp). by destruct (Z.ltb_spec 0 (budget p)); [lia|].
Qed.

Lemma decrement_promo_budget_iter (d : DB) (pid : Z) (p : Promotion) (n : nat) :
  promotions d !! pid = Some p ->
  0 <= budget p ->
  promotions (Nat.iter n (decrement_promo_budget pid) d) !! pid
  = Some (set_budget (budget p - Z.min (Z.of_nat n) (budget p)) p).
Proof.
  intros Hp Hb. induction n as [|n IH].
  - simpl. rewrite Hp. f_equal. destruct p; simpl in *.
    unfold set_budget; simpl. f_equal. lia.
  - rewrite Nat.iter_succ.
    rewrite (decrement_promo_budget_lookup _ _ _ IH), budget_set_budget.
    f_equal. destruct (Z.ltb_spec 0 (budget p - Z.min (Z.of_nat n) (budget p))).
    + rewrite set_budget_set_budget. f_equal. lia.
    + f_equal. lia.
Qed.

(** C3.  A promotion created with budget [B >= 0] has, after [n]
    decrements, budget [B - min n B] and all its other columns as created;
    that budget is never negative, one more decrement never raises it, and
    at budget 0 the decrement leaves the whole database as it is. *)
Theorem budget_after_decrements
    (d : DB) (owner : Z) (ptype : string) (B : Z) (chan : option Z)
    (text url : option string) (chat mid : option Z) (n : nat) :
  0 <= B ->
  let pid := next_promo_id d in
  let after k :=
    Nat.iter k (decrement_promo_budget pid)
      (add_promotion owner ptype B chan text url chat mid d) in
  let remaining := B - Z.min (Z.of_nat n) B in
  promotions (after n) !! pid
    = Some (mkPromotion owner ptype chan text url remaining chat mid)
  /\ 0 <= remaining
  /\ (exists p', promotions (after (S n)) !! pid = Some p' /\ budget p' <= remaining)
  /\ (remaining = 0 -> decrement_promo_budget pid (after n) = after n).
Proof.
  intros HB pid after remaining.
  assert (Hcreated : promotions (add_promotion owner ptype B chan text url chat mid d)
                       !! pid
                     = Some (mkPromotion owner ptype chan text url B chat mid)).
  { simpl. apply lookup_insert_eq. }
  assert (Hn : forall k, promotions (after k) !! pid
                 = Some (mkPromotion owner ptype chan text url
                           (B - Z.min (Z.of_nat k) B) chat mid)).
  { intros k. unfold after.
    by rewrite (decrement_promo_budget_iter _ _ _ k Hcreated). }
  split; [apply Hn|]. split; [unfold remaining; lia|]. split.
  - eexists. split; [apply Hn|]. simpl. unfold remaining. lia.
  - intros Hz. apply decrement_promo_budget_floor.
    intros p Hp. rewrite Hn in Hp. injection Hp as <-. simpl. fold remaining. lia.
Qed.

(** ** Task selection *)

(** C4.  The task the selector returns is a stored promotion with budget
    above zero, owned by somebody else and not yet claimed by the
    requesting account; it returns nothing exactly when no promotion is
    like that.  (The function is total: there is no error outcome.) *)
Theorem get_random_promotion_eligible (draws : list nat) (user_id : Z) (d : DB) :
  match get_random_promotion draws user_id d with
  | Some r =>
      exists p, promotions d !! row_promo_id r = Some p
        /\ r = promo_row (row_promo_id r, p)
        /\ 0 < budget p
        /\ promoter_user_id p <> user_id
        /\ (user_id, row_promo_id r) ∉ claimed_promos d
  | None =>
      forall k p, promotions d !! k = Some p ->
        ~ (0 < budget p /\ promoter_user_id p <> user_id
           /\ (user_id, k) ∉ claimed_promos d)
  end.
Proof.
  unfold get_random_promotion.
  set (P := fun row : Z * Promotion => Is_true (task_eligible user_id d row)).
  set (rows := sql_limit 1 (order_by_random draws (map_to_list (filter P (promotions d))))).
  assert (Helig : forall k p, P (k, p) <->
            0 < budget p /\ promoter_user_id p <> user_id
            /\ (user_id, k) ∉ claimed_promos d).
  { intros k p. unfold P, task_eligible, has_claimed_promo. simpl.
    rewrite Is_true_true, !andb_true_iff, !negb_true_iff.
    rewrite Z.ltb_lt, Z.eqb_neq, bool_decide_eq_false. tauto. }
  destruct rows as [|[k p] rest] eqn:Hrows; simpl.
  - intros k p Hp Hok. apply Helig in Hok.
    assert (Hne : filter P (promotions d) !! k = Some p)
      by by apply map_lookup_filter_Some.
    assert (Hlen : length rows = Nat.min 1 (length (map_to_list (filter P (promotions d))))).
    { unfold rows. rewrite sql_limit_length by lia.
      by rewrite order_by_random_perm. }
    apply elem_of_map_to_list in Hne.
    destruct (map_to_list (filter P (promotions d))); [by apply elem_of_nil in Hne|].
    rewrite Hrows in Hlen. simpl in Hlen. lia.
  - assert (Hin : (k, p) ∈ rows) by (rewrite Hrows; left).
    apply random_rows_elem in Hin as [Hp Hok].
    exists p. split; [done|]. split; [done|]. by apply Helig.
Qed.

(** ** Recipient sampling *)

(** C5.  For a limit [L] (a row count, so not negative) the group sample
    is duplicate-free, holds [min L (number of admin-elevated groups)]
    ids, hence at most [L], and only admin-elevated groups; the account
    sample is duplicate-free, holds [min L (number of eligible accounts)]
    ids and only accounts that are not banned and are not the excluded
    one. *)
Theorem samples_distinct_bounded_eligible
    (draws_g draws_u : list nat) (L excluded : Z) (d : DB) :
  0 <= L ->
  let gs := get_random_groups draws_g L d in
  let us := get_random_users_for_broadcast draws_u excluded L d in
  (NoDup gs
   /\ Z.of_nat (length gs) <= L
   /\ length gs
      = Nat.min (Z.to_nat L) (size (filter (fun row => admin_group row) (groups d)))
   /\ forall g, g ∈ gs -> exists row, groups d !! g = Some row /\ is_admin row = true)
  /\
  (NoDup us
   /\ Z.of_nat (length us) <= L
   /\ length us
      = Nat.min (Z.to_nat L)
          (size (filter (fun row => broadcast_eligible excluded row) (users d)))
   /\ forall k, k ∈ us ->
        k <> excluded /\ exists u, users d !! k = Some u /\ is_banned u = false).
Proof.
  intros HL gs us. split.
  - assert (Hlen := random_keys_length
                      (fun row : Z * Group => Is_true (admin_group row))
                      draws_g L (groups d) HL).
    split; [apply random_keys_NoDup|].
    split; [unfold gs, get_random_groups; rewrite Hlen; lia|].
    split; [done|]. intros g Hg.
    apply random_keys_elem in Hg as (row & Hrow & Hok).
    exists row. split; [done|]. by apply Is_true_true in Hok.
  - assert (Hlen := random_keys_length
                      (fun row : Z * User => Is_true (broadcast_eligible excluded row))
                      draws_u L (users d) HL).
    split; [apply random_keys_NoDup|].
    split; [unfold us, get_random_users_for_broadcast; rewrite Hlen; lia|].
    split; [done|]. intros k Hk.
    apply random_keys_elem in Hk as (u & Hu & Hok).
    apply Is_true_true in Hok. unfold broadcast_eligible in Hok. simpl in Hok.
    apply andb_true_iff in Hok as [Hne Hban].
    apply negb_true_iff in Hne, Hban. apply Z.eqb_neq in Hne. eauto.
Qed.

(** ** The daily reset *)

(** C6.  One daily reset gives every account its referral bonus on top
    of its balance, leaves the bonus (and every other column but the run
    counter) as it was, and sets the run counter to 5 for a premium
    account and to 2 otherwise; a balance of 10 with a bonus of 2 becomes
    12 with the bonus still 2. *)
Theorem execute_daily_reset_account (d : DB) (k : Z) (u : User) :
  users d !! k = Some u ->
  exists u', users (execute_daily_reset d) !! k = Some u'
    /\ credits u' = credits u + referral_credits u
    /\ referral_credits u' = referral_credits u
    /\ daily_promo_runs u' = (if is_premium u then 5 else 2)
    /\ u' = set_daily_promo_runs (if is_premium u then 5 else 2)
              (set_credits (credits u + referral_credits u) u)
    /\ (credits u = 10 -> referral_credits u = 2 ->
        credits u' = 12 /\ referral_credits u' = 2).
Proof.
  intros Hu. eexists. split.
  { simpl. rewrite !lookup_fmap, Hu. simpl. reflexivity. }
  destruct u as [? ? ? ? [] ? ? ? ? ? ? ? ? ? ?]; simpl;
    repeat split; try done; intros; lia.
Qed.

(* ===================================================================== *)
(** * Properties of the handlers *)
(* ===================================================================== *)

(** Running a handler symbolically: the monad's operations unfold to
    functions of the world. *)
Ltac run :=
  unfold mbind, M_bind, mret, M_ret, raise, db_query, db_exec, emit,
    bind_param, subscript, user_data_get, user_data_set, user_data_clear,
    reply_text, notice, notify_promoter, tg, int_of, except_telegram,
    get_user in *;
  simpl in *.

(** ** Validation of a promotion budget *)

(** C9.  A budget submission that is not a number, is not positive or
    exceeds the balance is answered at once with the matching error text;
    the database and the scratch data stay as they were, and the handler
    hands back [AWAIT_BUDGET] (or, when the transport cannot deliver the
    answer, lets its [TelegramError] escape, which leaves the conversation
    where it is as well). *)
Theorem get_promotion_budget_rejects
    (env : Env) (upd : Update) (text : string) (chat mid : Z) (w : World) (u : User) :
  content upd = Message text chat mid ->
  users (w_db w) !! uid upd = Some u ->
  match Py.int (int_max_str_digits env) text with
  | None => True
  | Some bud => bud <= 0 \/ credits u < bud
  end ->
  let report :=
    match Py.int (int_max_str_digits env) text with
    | None => MsgValidNumber
    | Some _ => MsgInvalidAmount (credits u)
    end in
  get_promotion_budget env upd w
  = (mkWorld (w_db w) (user_data w) (trace w ++ [Called (ReplyText report)]),
     match transport env (ReplyText report) with
     | Some _ => Ok AWAIT_BUDGET
     | None => Raise Py.TelegramError
     end).
Proof.
  intros Hmsg Hu Hbad report. unfold get_promotion_budget, report.
  rewrite Hmsg. destruct (Py.int _ text) as [bud|].
  - run. rewrite Hu, Hmsg. simpl.
    assert (Hrej : (0 <? bud) && (bud <=? credits u) = false).
    { apply andb_false_iff. rewrite Z.ltb_ge, Z.leb_gt. lia. }
    rewrite Hrej. simpl. by destruct (transport env _).
  - run. rewrite Hmsg. by destruct (transport env _).
Qed.

(** ** The delivery loop *)

Lemma filter_negb_length {A : Type} (ok : A -> bool) (l : list A) :
  (length (List.filter ok l) + length (List.filter (fun t => negb (ok t)) l))%nat
  = length l.
Proof. induction l as [|x l IH]; simpl; [done|]. destruct (ok x); simpl; lia. Qed.

(** A send that touches nothing but the trace, and fails (with
    [TelegramError]) exactly where [ok] is false, makes the loop count
    the targets where [ok] is true as sent and the others as failed,
    without stopping and without touching database or scratch data. *)
Lemma fan_out_run (send : Z -> M unit) (pause : nat) (failure : Z -> log_record)
    (ok : Z -> bool) :
  (forall t w, exists tr,
      send t w = (mkWorld (w_db w) (user_data w) (trace w ++ tr),
                  if ok t then Ok tt else Raise Py.TelegramError)) ->
  forall targets s f w, exists tr,
    fan_out send pause failure targets s f w
    = (mkWorld (w_db w) (user_data w) (trace w ++ tr),
       Ok (s + Z.of_nat (length (List.filter ok targets)),
           f + Z.of_nat (length (List.filter (fun t => negb (ok t)) targets)))).
Proof.
  intros Hsend targets.
  induction targets as [|t rest IH]; intros s f w; simpl.
  - exists []. rewrite app_nil_r, !Z.add_0_r. by destruct w.
  - unfold mbind at 1, M_bind at 1, except_telegram.
    unfold mbind at 1, M_bind at 1.
    destruct (Hsend t w) as [tr ->]. destruct (ok t); run.
    + destruct (IH (s + 1) f (mkWorld (w_db w) (user_data w)
                                ((trace w ++ tr) ++ [Slept pause]))) as [tr' ->].
      exists (tr ++ Slept pause :: tr')%list. simpl.
      rewrite <- !app_assoc. simpl. do 3 f_equal; lia.
    + destruct (IH s (f + 1) (mkWorld (w_db w) (user_data w)
                                ((trace w ++ tr) ++ [Logged (failure t)]))) as [tr' ->].
      exists (tr ++ Logged (failure t) :: tr')%list. simpl.
      rewrite <- !app_assoc. simpl. do 3 f_equal; lia.
Qed.

Lemma copy_to_user_run (env : Env) (from_chat message : pyval) (t : Z) (w : World) :
  exists tr,
    copy_to_user env from_chat message t w
    = (mkWorld (w_db w) (user_data w) (trace w ++ tr),
       if delivers_copy env from_chat message t then Ok tt
       else Raise Py.TelegramError).
Proof.
  unfold copy_to_user, delivers_copy. run.
  eexists. by destruct (transport env _).
Qed.

Lemma share_to_group_run (env : Env) (u : User) (t : Z) (w : World) :
  exists tr,
    share_to_group env u t w
    = (mkWorld (w_db w) (user_data w) (trace w ++ tr),
       if delivers_share env u t then Ok tt else Raise Py.TelegramError).
Proof.
  unfold share_to_group, delivers_share.
  destruct (Py.truthy_int _ && Py.truthy_int _); run.
  - destruct (transport env (CopyMessage _ _ _)) as [sent|]; simpl.
    + exists [Called (CopyMessage t (from_option VInt VNone (normal_promo_chat_id u))
                       (from_option VInt VNone (normal_promo_message_id u)));
              Called (EditMessageReplyMarkup t sent (normal_promo_url u))].
      rewrite <- app_assoc. simpl. by destruct (transport env _).
    + by eexists.
  - eexists. by destruct (transport env _).
Qed.

(** C8.  Over [N] targets of which the transport fails [K], either
    delivery loop (the premium image broadcast and the group share) runs
    to its end and reports [N - K] sent and [K] failed; the database and
    the scratch data are as before the loop. *)
Theorem delivery_loops_count (env : Env) (targets : list Z) (w : World) :
  let N := Z.of_nat (length targets) in
  (forall from_chat message,
      let K := Z.of_nat (length (List.filter
                 (fun t => negb (delivers_copy env from_chat message t)) targets)) in
      exists w',
        fan_out (copy_to_user env from_chat message) 200 LogPremiumBroadcastFail
          targets 0 0 w = (w', Ok (N - K, K))
        /\ w_db w' = w_db w /\ user_data w' = user_data w)
  /\
  (forall u,
      let K := Z.of_nat (length (List.filter
                 (fun t => negb (delivers_share env u t)) targets)) in
      exists w',
        fan_out (share_to_group env u) 500 LogGroupShareFail
          targets 0 0 w = (w', Ok (N - K, K))
        /\ w_db w' = w_db w /\ user_data w' = user_data w).
Proof.
  intros N. split.
  - intros from_chat message K.
    destruct (fan_out_run _ 200%nat LogPremiumBroadcastFail _
                (copy_to_user_run env from_chat message) targets 0 0 w) as [tr ->].
    exists (mkWorld (w_db w) (user_data w) (trace w ++ tr)). split; [|done].
    pose proof (filter_negb_length (delivers_copy env from_chat message) targets).
    unfold N, K. do 3 f_equal; lia.
  - intros u K.
    destruct (fan_out_run _ 500%nat LogGroupShareFail _
                (share_to_group_run env u) targets 0 0 w) as [tr ->].
    exists (mkWorld (w_db w) (user_data w) (trace w ++ tr)). split; [|done].
    pose proof (filter_negb_length (delivers_share env u) targets).
    unfold N, K. do 3 f_equal; lia.
Qed.

(** ** What a broadcast costs *)

(** For an account that has a row, [start] only talks. *)
Lemma start_existing (env : Env) (upd : Update) (w : World) (u : User) :
  users (w_db w) !! uid upd = Some u ->
  exists tr r,
    start env upd w = (mkWorld (w_db w) (user_data w) (trace w ++ tr), r).
Proof.
  intros Hu. unfold start, check_user.
  destruct (content upd) eqn:Hc; run; rewrite ?Hu; simpl.
  - destruct (is_banned u); simpl.
    + destruct (transport env (ReplyText MsgBanned)); simpl; eauto.
    + rewrite Hu. simpl.
      destruct (transport env (ReplyText _)); simpl; eauto.
  - destruct (transport env (EditMessageText _)); simpl;
      rewrite <- ?app_assoc; eauto.
Qed.

Lemma sqlite_int_small (z : Z) : 0 < z < 2 ^ 49 -> sqlite_int z = true.
Proof.
  intros Hz. unfold sqlite_int.
  apply andb_true_iff. rewrite Z.leb_le, Z.ltb_lt.
  change (2 ^ 49) with 562949953421312 in Hz.
  change (2 ^ 63) with 9223372036854775808. lia.
Qed.

(** C1 (as the code has it).  When a premium image broadcast passes its
    checks and runs its loop, the image allowance is debited by the number
    of sends that succeeded and the balance by [ceil(count / 10)] for the
    count that was asked for, whatever the outcome of the sends; nothing
    else in the database changes.  A batch in which every send fails
    leaves the allowance as it was and still costs the price checked
    beforehand. *)
Theorem get_broadcast_count_debits
    (env : Env) (upd : Update) (text : string) (chat mid : Z) (w : World)
    (u : User) (count : Z) (from_chat message : pyval) :
  content upd = Message text chat mid ->
  Py.int (int_max_str_digits env) text = Some count ->
  users (w_db w) !! uid upd = Some u ->
  0 < count < 2 ^ 49 ->
  count <= image_broadcasts_left u ->
  Py.ceil_div10 count <= credits u ->
  is_Some (transport env (ReplyText MsgStartingBroadcast)) ->
  user_data w !! "broadcast_chat_id" = Some from_chat ->
  user_data w !! "broadcast_message_id" = Some message ->
  let targets :=
    get_random_users_for_broadcast (random env) (uid upd) count (w_db w) in
  let s := Z.of_nat (length (List.filter (delivers_copy env from_chat message) targets)) in
  let cost := Py.ceil_div10 count in
  let w' := (get_broadcast_count env upd w).1 in
  w_db w' = update_user_credits (uid upd) (- cost)
              (use_image_broadcast_run (uid upd) s (w_db w))
  /\ users (w_db w') !! uid upd
     = Some (set_credits (credits u - cost)
               (set_image_broadcasts_left (image_broadcasts_left u - s) u))
  /\ (s = 0 ->
      exists u', users (w_db w') !! uid upd = Some u'
        /\ image_broadcasts_left u' = image_broadcasts_left u
        /\ credits u' = credits u - cost).
Proof.
  intros Hmsg Hint Hu Hcount Hleft Hcost [m0 Hstart] Hchat Hmessage
    targets s cost w'.
  assert (Hdb : w_db w' = update_user_credits (uid upd) (- cost)
                            (use_image_broadcast_run (uid upd) s (w_db w))).
  { unfold w', get_broadcast_count. rewrite Hmsg, Hint. run.
    destruct (Z.leb_spec count 0); [lia|]. rewrite Hu. simpl.
    destruct (Z.ltb_spec (image_broadcasts_left u) count); [lia|].
    destruct (Z.ltb_spec (credits u) (Py.ceil_div10 count)); [lia|].
    rewrite Hmsg. simpl. rewrite Hstart. simpl.
    rewrite sqlite_int_small by done. simpl.
    rewrite Hchat. simpl. rewrite Hmessage. simpl.
    match goal with
    | |- context [fan_out ?sd ?p ?fl ?ts ?a ?b ?w1] =>
        destruct (fan_out_run sd p fl _ (copy_to_user_run env from_chat message)
                    ts a b w1) as [tr Hfan];
        rewrite Hfan
    end.
    simpl. rewrite ?Hmsg. simpl.
    destruct (transport env (ReplyText (MsgBroadcastComplete _ _ _))); simpl; [|done].
    match goal with
    | |- context [start env upd ?w1] =>
        destruct (start_existing env upd w1
                    (set_credits (credits u - cost)
                       (set_image_broadcasts_left (image_broadcasts_left u - s) u)))
          as (tr' & r & Hst)
    end.
    { simpl. rewrite !lookup_alter_eq, Hu. simpl.
      unfold set_credits, set_image_broadcasts_left; simpl. do 2 f_equal. }
    rewrite Hst. by destruct r. }
  assert (Hrow : users (w_db w') !! uid upd
                 = Some (set_credits (credits u - cost)
                           (set_image_broadcasts_left (image_broadcasts_left u - s) u))).
  { rewrite Hdb. simpl. rewrite !lookup_alter_eq, Hu. simpl.
    unfold set_credits, set_image_broadcasts_left; simpl. do 2 f_equal. }
  split; [done|]. split; [done|].
  intros Hs. eexists. split; [exact Hrow|]. simpl. split; [lia|done].
Qed.

(** X28.  A group share, once its loop has run, costs one daily run,
    however many of the sends succeeded; nothing else in the database
    changes. *)
Lemma execute_group_share_debits (env : Env) (upd : Update) (w : World) (u : User) :
  users (w_db w) !! uid upd = Some u ->
  0 < daily_promo_runs u ->
  Py.truthy_str (normal_promo_url u) = true ->
  let grps := get_random_groups (random env) (if is_premium u then 10 else 5) (w_db w) in
  grps <> [] ->
  is_Some (transport env
             match content upd with
             | CallbackQuery _ => EditMessageText (MsgSending (length grps))
             | Message _ _ _ => ReplyText (MsgSending (length grps))
             end) ->
  w_db (execute_group_share env upd w).1 = use_promo_run (uid upd) (w_db w).
Proof.
  intros Hu Hruns Hurl grps Hgrps [m0 Hsend].
  unfold execute_group_share. run. rewrite Hu. simpl.
  destruct (Z.leb_spec (daily_promo_runs u) 0); [lia|]. rewrite Hurl. simpl.
  fold grps. clearbody grps.
  destruct grps as [|g rest] eqn:Hg; [done|]. rewrite <- Hg in *. clear Hg.
  assert (Hloop : forall w0, exists tr,
            fan_out (share_to_group env u) 500 LogGroupShareFail grps 0 0 w0
            = (mkWorld (w_db w0) (user_data w0) (trace w0 ++ tr),
               Ok (0 + Z.of_nat (length (List.filter (delivers_share env u) grps)),
                   0 + Z.of_nat (length (List.filter
                                   (fun t => negb (delivers_share env u t)) grps))))).
  { intros w0.
    apply (fan_out_run _ _ _ (delivers_share env u) (share_to_group_run env u)). }
  destruct (content upd); simpl in *; rewrite Hsend; simpl.
  - destruct (Hloop (mkWorld (w_db w) (user_data w)
                       (trace w ++ [Called (ReplyText (MsgSending (length grps)))])))
      as [tr ->]. simpl.
    rewrite lookup_alter_eq, Hu. run. cbv beta.
    by destruct (transport env (_ (MsgPromotionSent _ _ _))).
  - destruct (Hloop (mkWorld (w_db w) (user_data w)
                       (trace w ++ [Called (EditMessageText (MsgSending (length grps)))])))
      as [tr ->]. simpl.
    rewrite lookup_alter_eq, Hu. run. cbv beta.
    by destruct (transport env (_ (MsgPromotionSent _ _ _))).
Qed.

(** ** Claiming twice *)

Lemma claim_token_Some (env : Env) (data : string) (promo_id promoter_id : Z) :
  claim_token env data = Some (promo_id, promoter_id) ->
  exists x a b,
    Py.split "_" data = [x; a; b]
    /\ Py.int (int_max_str_digits env) a = Some promo_id
    /\ Py.int (int_max_str_digits env) b = Some promoter_id.
Proof.
  unfold claim_token.
  destruct (Py.split "_" data) as [|x [|a [|b [|? ?]]]]; try done.
  destruct (Py.int _ a) as [pa|] eqn:Ha; [|done].
  destruct (Py.int _ b) as [pb|] eqn:Hb; [|done].
  intros ?; simplify_eq. by exists x, a, b.
Qed.

(** The statements that follow a recorded claim leave the claim table
    alone. *)
Lemma has_claimed_after_claim (user_id promo_id reward promoter_id : Z) (d : DB) :
  has_claimed_promo user_id promo_id
    (increment_clicks_received promoter_id
       (update_user_credits user_id reward
          (decrement_promo_budget promo_id (claim_promo user_id promo_id d))))
  = true.
Proof. unfold has_claimed_promo. simpl. apply bool_decide_eq_true. set_solver. Qed.

(** What a first claim writes: the claim row, the budget decrement, the
    reward (1, or 2 for a premium account) and the promoter's view. *)
Lemma handle_claim_promo_fresh
    (env : Env) (upd : Update) (data : string) (w : World) (promo_id promoter_id : Z) :
  claim_token env data = Some (promo_id, promoter_id) ->
  sqlite_int promo_id = true ->
  sqlite_int promoter_id = true ->
  has_claimed_promo (uid upd) promo_id (w_db w) = false ->
  w_db (handle_claim_promo env upd data w).1
  = increment_clicks_received promoter_id
      (update_user_credits (uid upd) (reward_of 1 (get_user (uid upd) (w_db w)))
         (decrement_promo_budget promo_id
            (claim_promo (uid upd) promo_id (w_db w)))).
Proof.
  intros (x & a & b & Hsplit & Ha & Hb)%claim_token_Some Hp Hq Hfresh.
  unfold handle_claim_promo. rewrite Hsplit. run.
  rewrite Ha, Hb. simpl. rewrite Hp. simpl. rewrite Hfresh. simpl.
  rewrite Hq. simpl.
  destruct (transport env (EditMessageText _)); simpl; [|done].
  by destruct (transport env (SendMessage _ _ _)).
Qed.

(** C2.  Once the claim handler has run to its end for an account and a
    promotion, running it again for the same account and any token of the
    same promotion changes nothing in the database (no claim row, no
    budget decrement, no reward, no view counted, so a balance delta of
    0); all it does is answer with the already-completed notice. *)
Theorem second_claim_pays_nothing
    (env : Env) (upd : Update) (data data' : string) (w w1 : World)
    (promo_id promoter_id promoter_id' : Z) :
  claim_token env data = Some (promo_id, promoter_id) ->
  claim_token env data' = Some (promo_id, promoter_id') ->
  handle_claim_promo env upd data w = (w1, Ok tt) ->
  let notice_call := AnswerCallback (Some MsgAlreadyCompleted) true in
  handle_claim_promo env upd data' w1
  = (mkWorld (w_db w1) (user_data w1) (trace w1 ++ [Called notice_call]),
     match transport env notice_call with
     | Some _ => Ok tt
     | None => Raise Py.TelegramError
     end).
Proof.
  intros (x & a & b & Hsplit & Ha & Hb)%claim_token_Some
         (x' & a' & b' & Hsplit' & Ha' & Hb')%claim_token_Some.
  cbv zeta. unfold handle_claim_promo. rewrite Hsplit, Hsplit'. run.
  rewrite Ha, Hb, Ha', Hb'. simpl.
  destruct (sqlite_int promo_id); [|discriminate]. simpl.
  destruct (has_claimed_promo (uid upd) promo_id (w_db w)) eqn:Hclaimed; simpl.
  - destruct (transport env _) eqn:Htg; [|discriminate].
    intros [= <-]. simpl. by rewrite Hclaimed.
  - destruct (sqlite_int promoter_id); [|discriminate]. simpl.
    destruct (transport env (EditMessageText _)); [|discriminate]. simpl.
    destruct (transport env (SendMessage _ _ _)); simpl.
    + intros [= <-]. simpl. rewrite has_claimed_after_claim.
      by destruct (transport env _).
    + intros [= <-]. simpl. rewrite has_claimed_after_claim.
      by destruct (transport env _).
Qed.

(** ** Malformed tokens *)

Lemma handle_claim_promo_malformed (env : Env) (upd : Update) (data : string) (w : World) :
  claim_token env data = None ->
  handle_claim_promo env upd data w = (w, Raise Py.ValueError).
Proof.
  unfold claim_token, handle_claim_promo.
  destruct (Py.split "_" data) as [|x [|a [|b [|? ?]]]]; try done.
  run. destruct (Py.int _ a) as [pa|]; [|done].
  by destruct (Py.int _ b) as [pb|].
Qed.

Lemma handle_verify_promo_malformed (env : Env) (upd : Update) (data : string) (w : World) :
  verify_token env data = None ->
  handle_verify_promo env upd data w = (w, Raise Py.ValueError).
Proof.
  unfold verify_token, handle_verify_promo.
  destruct (Py.split "_" data) as [|x [|a [|b [|c [|? ?]]]]]; try done.
  run. destruct (Py.int _ a) as [pa|]; [|done].
  destruct (Py.int _ b) as [pb|]; [|done].
  by destruct (Py.int _ c) as [pc|].
Qed.

(** A well-formed token never makes the decoder raise [ValueError]. *)
Lemma handle_claim_promo_well_formed (env : Env) (upd : Update) (data : string) (w : World) :
  is_Some (claim_token env data) ->
  (handle_claim_promo env upd data w).2 <> Raise Py.ValueError.
Proof.
  intros [[pa pb] (x & a & b & Hsplit & Ha & Hb)%claim_token_Some].
  unfold handle_claim_promo. rewrite Hsplit. run. rewrite Ha, Hb. simpl.
  destruct (sqlite_int pa); simpl; [|done].
  destruct (has_claimed_promo _ _ _); simpl.
  - by destruct (transport env _).
  - destruct (sqlite_int pb); simpl; [|done].
    destruct (transport env (EditMessageText _)); simpl; [|done].
    by destruct (transport env (SendMessage _ _ _)).
Qed.

Lemma startswith_cons (data p : string) (c : ascii) :
  Py.startswith data (String c p) = true ->
  exists rest, data = String c rest /\ Py.startswith rest p = true.
Proof.
  unfold Py.startswith. destruct data as [|c' rest]; simpl; [done|].
  destruct (ascii_dec c c') as [<-|]; [|done]. eauto.
Qed.

(** C7 (as the code has it).  A claim or verify button whose token is
    malformed (a field missing, one too many, or one that is not a number)
    makes the decoder raise [ValueError]; neither the handler nor the
    dispatcher catches it.  The dispatcher has by then acknowledged the
    button press, and that empty acknowledgement is all the user gets: no
    notice is sent, and the database and the scratch data are as
    before. *)
Theorem malformed_token_escapes
    (env : Env) (upd : Update) (data : string) (w : World) (u : User) :
  content upd = CallbackQuery data ->
  users (w_db w) !! uid upd = Some u ->
  is_banned u = false ->
  is_Some (transport env (AnswerCallback None false)) ->
  (Py.startswith data "claim_" = true /\ claim_token env data = None)
  \/ (Py.startswith data "verify_" = true /\ verify_token env data = None) ->
  button_handler env upd w
  = (mkWorld (w_db w) (user_data w) (trace w ++ [Called (AnswerCallback None false)]),
     Raise Py.ValueError).
Proof.
  intros Hc Hu Hban [ack Hack] Hbad.
  unfold button_handler, check_user. rewrite Hc. run.
  rewrite Hack. simpl. rewrite Hu, Hban. simpl.
  destruct Hbad as [[Hpre Hbad]|[Hpre Hbad]];
    destruct (startswith_cons _ _ _ Hpre) as (rest & -> & Hrest).
  - rewrite bool_decide_eq_false_2; [simpl|].
    2:{ unfold menu_actions. intros Hin.
        repeat (apply elem_of_cons in Hin as [Heq|Hin]; [discriminate|]).
        by apply elem_of_nil in Hin. }
    rewrite Hrest. by apply handle_claim_promo_malformed.
  - rewrite bool_decide_eq_false_2; [simpl|].
    2:{ unfold menu_actions. intros Hin.
        repeat (apply elem_of_cons in Hin as [Heq|Hin]; [discriminate|]).
        by apply elem_of_nil in Hin. }
    rewrite Hrest. by apply handle_verify_promo_malformed.
Qed.

(** ** Referral bonuses *)

Lemma add_user_lookup_other (user_id k : Z) (uname : option string)
    (inviter : option Z) (d : DB) :
  k <> user_id -> users (add_user user_id uname inviter d) !! k = users d !! k.
Proof.
  intros Hk. unfold add_user. destruct (users d !! user_id); [done|].
  simpl. by rewrite lookup_insert_ne.
Qed.

Lemma add_user_lookup_new (user_id : Z) (uname : option string)
    (inviter : option Z) (d : DB) :
  users d !! user_id = None ->
  users (add_user user_id uname inviter d) !! user_id = Some (new_user uname inviter).
Proof. intros Hn. unfold add_user. rewrite Hn. simpl. apply lookup_insert_eq. Qed.

(** What [check_user] does to the database when the account is new. *)
Lemma check_user_new_db (env : Env) (upd : Update) (w : World) :
  users (w_db w) !! uid upd = None ->
  w_db (check_user env upd w).1
  = let register inviter :=
      add_user (uid upd) (tg_username (effective_user upd)) inviter in
    match args upd with
    | a :: _ =>
        if chat_is_private upd then
          match Py.int (int_max_str_digits env) a with
          | None => register None (w_db w)
          | Some inviter =>
              if bool_decide (inviter ≠ uid upd) then
                if sqlite_int inviter
                then register (Some inviter) (update_referral_credits inviter 2 (w_db w))
                else w_db w
              else register (Some inviter) (w_db w)
          end
        else register None (w_db w)
    | [] => register None (w_db w)
    end.
Proof.
  intros Hnew. unfold check_user, referral. run. rewrite Hnew. simpl.
  destruct (args upd) as [|a rest]; simpl; [done|].
  destruct (chat_is_private upd); simpl; [|done].
  destruct (Py.int _ a) as [inviter|]; simpl; [|done].
  destruct (bool_decide (inviter ≠ uid upd)); simpl; [|done].
  destruct (sqlite_int inviter); simpl; [|done].
  by destruct (transport env _).
Qed.

(** The three things that can happen to the database: the inviter's id
    does not fit SQLite and nothing is written; the user is registered
    and that is all; the inviter gets the bonus and the user is
    registered. *)
Lemma check_user_new_cases (env : Env) (upd : Update) (w : World) :
  users (w_db w) !! uid upd = None ->
  let db' := w_db (check_user env upd w).1 in
  let decoded := match args upd with
                 | a :: _ => Py.int (int_max_str_digits env) a
                 | [] => None
                 end in
  let grant inviter :=
    decoded = Some inviter /\ inviter <> uid upd /\ chat_is_private upd = true in
  (db' = w_db w /\ exists inviter, grant inviter /\ sqlite_int inviter = false)
  \/ ((exists i, db' = add_user (uid upd) (tg_username (effective_user upd)) i (w_db w))
      /\ forall inviter, ~ grant inviter)
  \/ (exists inviter, grant inviter /\ sqlite_int inviter = true
        /\ db' = add_user (uid upd) (tg_username (effective_user upd)) (Some inviter)
                  (update_referral_credits inviter 2 (w_db w))).
Proof.
  intros Hnew db' decoded grant. unfold db', grant, decoded.
  rewrite (check_user_new_db env upd w Hnew). cbv zeta.
  destruct (args upd) as [|a rest].
  { right; left. split; [eauto|]. by intros i [? _]. }
  destruct (chat_is_private upd).
  2:{ right; left. split; [eauto|]. by intros i (_ & _ & ?). }
  destruct (Py.int _ a) as [inviter|].
  2:{ right; left. split; [eauto|]. by intros i [? _]. }
  destruct (bool_decide_reflect (inviter ≠ uid upd)) as [Hne|Heq].
  - destruct (sqlite_int inviter) eqn:Hrange.
    + right; right. by exists inviter.
    + left. split; [done|]. by exists inviter.
  - apply dec_stable in Heq. subst inviter.
    right; left. split; [eauto|]. by intros i ([= <-] & ? & _).
Qed.

(** C10.  When a new user arrives with a start parameter: if the
    parameter decodes to the user's own id, the account is registered and
    no account's referral bonus changes; in general an account whose
    bonus changes is the decoded inviter, is not the new user, and gains
    exactly 2 (and does gain it when the parameter names another,
    existing account in a private chat); the new account itself starts
    with bonus 0. *)
Theorem referral_bonus_excludes_self (env : Env) (upd : Update) (w : World) :
  users (w_db w) !! uid upd = None ->
  let w' := (check_user env upd w).1 in
  let decoded := match args upd with
                 | a :: _ => Py.int (int_max_str_digits env) a
                 | [] => None
                 end in
  (decoded = Some (uid upd) ->
     w_db w' = add_user (uid upd) (tg_username (effective_user upd))
                 (if chat_is_private upd then Some (uid upd) else None) (w_db w)
     /\ forall k u, users (w_db w) !! k = Some u -> users (w_db w') !! k = Some u)
  /\ (forall k u u',
        users (w_db w) !! k = Some u -> users (w_db w') !! k = Some u' ->
        referral_credits u' <> referral_credits u ->
        decoded = Some k /\ k <> uid upd /\ chat_is_private upd = true
        /\ referral_credits u' = referral_credits u + 2)
  /\ (forall inviter u,
        decoded = Some inviter -> inviter <> uid upd ->
        chat_is_private upd = true -> sqlite_int inviter = true ->
        users (w_db w) !! inviter = Some u ->
        users (w_db w') !! inviter
        = Some (set_referral_credits (referral_credits u + 2) u))
  /\ (forall u0, users (w_db w') !! uid upd = Some u0 -> referral_credits u0 = 0).
Proof.
  intros Hnew w' decoded.
  assert (Hother : forall k u, users (w_db w) !! k = Some u -> k <> uid upd).
  { intros k u Hk ->. congruence. }
  assert (Hrow : forall n i d u0, users d !! uid upd = None ->
            users (add_user (uid upd) n i d) !! uid upd = Some u0 ->
            referral_credits u0 = 0).
  { intros n i d u0 Hd. rewrite add_user_lookup_new by done. by intros [= <-]. }
  assert (Hself : decoded = Some (uid upd) ->
            w_db w' = add_user (uid upd) (tg_username (effective_user upd))
                        (if chat_is_private upd then Some (uid upd) else None)
                        (w_db w)).
  { unfold decoded, w'. rewrite (check_user_new_db env upd w Hnew). cbv zeta.
    destruct (args upd) as [|a rest]; [done|]. intros ->.
    destruct (chat_is_private upd); [|done].
    by rewrite bool_decide_eq_false_2 by (intros Hne; by apply Hne). }
  split.
  { intros Hd. split; [by apply Hself|]. intros k u Hk.
    rewrite (Hself Hd). by rewrite add_user_lookup_other by eauto. }
  clear Hself.
  destruct (check_user_new_cases env upd w Hnew)
    as [[Hdb (inv & (Hdec & Hne & Hpriv) & Hrange)]
       |[[[i Hdb] Hno]
        |(inv & (Hdec & Hne & Hpriv) & Hrange & Hdb)]];
    fold w' in Hdb; fold decoded in Hdec || fold decoded in Hno; rewrite Hdb.
  - (* nothing written *)
    split; [intros; congruence|].
    split; [|intros; congruence].
    intros inviter u Hd. congruence.
  - (* registration only *)
    split; [|split; [|eauto]].
    + intros k u u' Hk Hk' Hchg.
      rewrite add_user_lookup_other in Hk' by eauto. congruence.
    + intros inviter u Hd Hn Hp. by destruct (Hno inviter).
  - (* bonus and registration *)
    assert (Hnew2 : users (update_referral_credits inv 2 (w_db w)) !! uid upd = None).
    { simpl. by rewrite lookup_alter_None. }
    split; [|split; [|eauto]].
    + intros k u u' Hk Hk' Hchg.
      rewrite add_user_lookup_other in Hk' by eauto. simpl in Hk'.
      rewrite lookup_alter in Hk'. case_decide as Hik.
      * subst k. rewrite Hk in Hk'. injection Hk' as <-. simpl. eauto.
      * congruence.
    + intros inviter u Hd _ _ _ Hi.
      assert (inviter = inv) as -> by congruence.
      rewrite add_user_lookup_other by done. simpl.
      by rewrite lookup_alter_eq, Hi.
Qed.

(** ** The tokens the bot writes *)

(** Whatever [tasks] formats, the decoders read back: malformed tokens
    do not come from the bot's own buttons. *)

(** The value of a digit character, computed. *)
Ltac digit_value :=
  match goal with
  | |- context [Py.digit_val ?c] =>
      let v := eval vm_compute in (Py.digit_val c) in
      change (Py.digit_val c) with v
  end.

Lemma int_digits_uint_acc (d : Decimal.uint) (acc : positive) (n : nat) :
  Py.int_digits true (Z.pos acc) n (NilEmpty.string_of_uint d)
  = Some (Z.pos (Pos.of_uint_acc d acc), (n + Decimal.nb_digits d)%nat).
Proof.
  revert acc n. induction d as [|d IH|d IH|d IH|d IH|d IH|d IH|d IH|d IH|d IH|d IH];
    intros acc n; simpl NilEmpty.string_of_uint; simpl Pos.of_uint_acc;
    simpl Decimal.nb_digits.
  1: { simpl. do 2 f_equal. lia. }
  all: unfold Py.int_digits; fold Py.int_digits;
    change (Py.is_digit _) with true; cbv iota; digit_value;
    match goal with
    | |- Py.int_digits true ?v _ _ = Some (Z.pos (Pos.of_uint_acc _ ?a), _) =>
        replace v with (Z.pos a) by lia
    end;
    rewrite IH; do 2 f_equal; lia.
Qed.

Lemma int_digits_uint (d : Decimal.uint) (prev : bool) (n : nat) :
  d <> Decimal.Nil \/ prev = true ->
  Py.int_digits prev 0 n (NilEmpty.string_of_uint d)
  = Some (Z.of_N (Pos.of_uint d), (n + Decimal.nb_digits d)%nat).
Proof.
  revert prev n. induction d as [|d IH|d IH|d IH|d IH|d IH|d IH|d IH|d IH|d IH|d IH];
    intros prev n Hd; simpl NilEmpty.string_of_uint; simpl Pos.of_uint;
    simpl Decimal.nb_digits.
  1: { destruct Hd as [?| ->]; [done|]. simpl. do 2 f_equal. lia. }
  1: { unfold Py.int_digits; fold Py.int_digits.
       change (Py.is_digit _) with true. cbv iota. digit_value.
       change (10 * 0 + 0) with 0.
       rewrite IH by auto. do 2 f_equal. lia. }
  all: unfold Py.int_digits; fold Py.int_digits;
    change (Py.is_digit _) with true; cbv iota; digit_value;
    match goal with
    | |- Py.int_digits true ?v _ _ = Some (Z.of_N (N.pos (Pos.of_uint_acc _ ?a)), _) =>
        change v with (Z.pos a)
    end;
    rewrite int_digits_uint_acc; do 2 f_equal; lia.
Qed.

Lemma plain_uint (d : Decimal.uint) : plain (NilEmpty.string_of_uint d) = true.
Proof. induction d; simpl; try done; by rewrite IHd. Qed.

Lemma rstrip_plain (s : string) : plain s = true -> Py.rstrip s = s.
Proof.
  induction s as [|c s IH]; simpl; [done|].
  intros [[Hc _]%andb_true_iff Hs]%andb_true_iff.
  rewrite IH by done. apply negb_true_iff in Hc. rewrite Hc. by destruct s.
Qed.

Lemma strip_plain (s : string) : plain s = true -> Py.strip s = s.
Proof.
  intros Hs. unfold Py.strip.
  destruct s as [|c s]; [done|]. simpl in *.
  apply andb_true_iff in Hs as [[Hc H_]%andb_true_iff Hs].
  apply negb_true_iff in Hc. rewrite Hc.
  change (Py.rstrip (String c s) = String c s).
  apply rstrip_plain. simpl. by rewrite Hc, H_, Hs.
Qed.

Lemma split_plain (s : string) : plain s = true -> Py.split "_" s = [s].
Proof.
  induction s as [|c s IH]; simpl; [done|].
  intros [[_ Hc]%andb_true_iff Hs]%andb_true_iff.
  apply negb_true_iff in Hc. rewrite Hc. by rewrite IH.
Qed.

Lemma split_plain_app (a b : string) :
  plain a = true ->
  Py.split "_" (a ++ String "_" b) = a :: Py.split "_" b.
Proof.
  induction a as [|c a IH]; simpl; [done|].
  intros [[_ Hc]%andb_true_iff Ha]%andb_true_iff.
  apply negb_true_iff in Hc. rewrite Hc. by rewrite IH.
Qed.

(** [int(str(z)) == z], and [str(z)] has no underscore. *)
Lemma int_str (lim : nat) (z : Z) (s : string) :
  Py.str lim z = Some s -> Py.int lim s = Some z /\ plain s = true.
Proof.
  unfold Py.str.
  destruct ((0 <? lim)%nat && (lim <? _)%nat) eqn:Hlim; [done|].
  intros [= <-].
  assert (Heq : forall u, u <> Decimal.Nil ->
            NilZero.string_of_uint u = NilEmpty.string_of_uint u).
  { intros u Hu. unfold NilZero.string_of_uint. by destruct u. }
  assert (Hplain : plain (NilZero.string_of_int (Z.to_int z)) = true).
  { destruct z as [|p|p]; simpl; [done| |];
      rewrite Heq by apply Unsigned.to_uint_nonnil; by rewrite ?plain_uint. }
  split; [|done].
  unfold Py.int. rewrite strip_plain by done.
  destruct z as [|p|p]; simpl in *; [by rewrite Hlim| |];
    pose proof (Unsigned.to_uint_nonnil p) as Hnn;
    rewrite Heq by done.
  - assert (Hsign :
      match NilEmpty.string_of_uint (Pos.to_uint p) with
      | String "+" r => (false, r)
      | String "-" r => (true, r)
      | _ => (false, NilEmpty.string_of_uint (Pos.to_uint p))
      end = (false, NilEmpty.string_of_uint (Pos.to_uint p))).
    { by destruct (Pos.to_uint p). }
    rewrite Hsign, int_digits_uint by auto.
    rewrite Unsigned.of_to. simpl. by rewrite Hlim.
  - rewrite int_digits_uint by auto.
    rewrite Unsigned.of_to. simpl. by rewrite Hlim.
Qed.

Lemma startswith_app (p s : string) : Py.startswith (p ++ s) p = true.
Proof.
  unfold Py.startswith. induction p as [|c p IH]; simpl.
  - by destruct s.
  - by destruct (ascii_dec c c).
Qed.

Lemma claim_callback_data_decodes (env : Env) (promo_id promoter_id : Z) (data : string) :
  claim_callback_data env promo_id promoter_id = Some data ->
  Py.startswith data "claim_" = true
  /\ claim_token env data = Some (promo_id, promoter_id).
Proof.
  unfold claim_callback_data.
  destruct (Py.str _ promo_id) as [a|] eqn:Ha; [|done].
  destruct (Py.str _ promoter_id) as [b|] eqn:Hb; [|done].
  simpl. intros [= <-]. split; [apply startswith_app|].
  apply int_str in Ha as [Hia Hpa], Hb as [Hib Hpb].
  unfold claim_token.
  change ("claim_" ++ a ++ "_" ++ b)%string
    with ("claim" ++ String "_" (a ++ String "_" b))%string.
  rewrite (split_plain_app "claim") by done.
  by rewrite split_plain_app, split_plain, Hia, Hib.
Qed.

(** X29.  The token [tasks] writes on a verify button is read back by
    the verify handler's decoder as the same promotion, channel and
    promoter, negative channel ids included, and it is routed there by
    its prefix. *)
Lemma verify_callback_data_decodes
    (env : Env) (promo_id channel promoter_id : Z) (data : string) :
  verify_callback_data env promo_id channel promoter_id = Some data ->
  Py.startswith data "verify_" = true
  /\ verify_token env data = Some (promo_id, channel, promoter_id).
Proof.
  unfold verify_callback_data.
  destruct (Py.str _ promo_id) as [a|] eqn:Ha; [|done].
  destruct (Py.str _ channel) as [b|] eqn:Hb; [|done].
  destruct (Py.str _ promoter_id) as [c|] eqn:Hc; [|done].
  simpl. intros [= <-]. split; [apply startswith_app|].
  apply int_str in Ha as [Hia Hpa], Hb as [Hib Hpb], Hc as [Hic Hpc].
  unfold verify_token.
  change ("verify_" ++ a ++ "_" ++ b ++ "_" ++ c)%string
    with ("verify" ++ String "_" (a ++ String "_" (b ++ String "_" c)))%string.
  rewrite (split_plain_app "verify") by done.
  by rewrite !split_plain_app, split_plain, Hia, Hib, Hic.
Qed.

(* ===================================================================== *)
(** * The statements at work *)
(* ===================================================================== *)

(** Two sends, both failing: the allowance stays at 100 and the balance
    still goes from 10 to 9. *)
Lemma failed_broadcast_is_charged :
  let w' := (get_broadcast_count Sample.env_copies_fail
               (Sample.message Sample.tg_ann "2") Sample.world_broadcast).1 in
  trace w'
  = [ Called (ReplyText MsgStartingBroadcast);
      Called (CopyMessage 3 (VInt 1) (VInt 77));
      Logged (LogPremiumBroadcastFail 3);
      Called (CopyMessage 2 (VInt 1) (VInt 77));
      Logged (LogPremiumBroadcastFail 2);
      Called (ReplyText (MsgBroadcastComplete 0 2 1));
      Called (ReplyText (MsgWelcome "Ann" 9 2)) ]
  /\ credits <$> users (w_db Sample.world_broadcast) !! 1 = Some 10
  /\ credits <$> users (w_db w') !! 1 = Some 9
  /\ image_broadcasts_left <$> users (w_db w') !! 1 = Some 100
  /\ credits <$> users (w_db w') !! 1
     <> credits <$> users (w_db Sample.world_broadcast) !! 1.
Proof. vm_compute. repeat split; (reflexivity || discriminate). Qed.

(** The same broadcast over a transport that delivers: both debits. *)
Lemma get_broadcast_count_debits_witness :
  let w' := (get_broadcast_count Sample.env
               (Sample.message Sample.tg_ann "2") Sample.world_broadcast).1 in
  users (w_db w') !! 1
  = Some (set_credits 9 (set_image_broadcasts_left 98 Sample.ann)).
Proof.
  refine (proj1 (proj2
    (get_broadcast_count_debits Sample.env (Sample.message Sample.tg_ann "2")
       "2" 1 500 Sample.world_broadcast Sample.ann 2 (VInt 1) (VInt 77)
       _ _ _ _ _ _ _ _ _))).
  - reflexivity.
  - reflexivity.
  - reflexivity.
  - split; reflexivity.
  - vm_compute; discriminate.
  - vm_compute; discriminate.
  - by eexists.
  - reflexivity.
  - reflexivity.
Defined.

(** A token with a field that is not a number: the press is
    acknowledged, then [ValueError] escapes. *)
Lemma malformed_claim_token_raises :
  button_handler Sample.env (Sample.button Sample.tg_bob "claim_7") Sample.world
  = (mkWorld Sample.db ∅ [Called (AnswerCallback None false)],
     Raise Py.ValueError).
Proof. vm_compute. reflexivity. Qed.

Lemma malformed_token_escapes_witness :
  button_handler Sample.env (Sample.button Sample.tg_bob "verify_1_x_1") Sample.world
  = (mkWorld Sample.db ∅ [Called (AnswerCallback None false)],
     Raise Py.ValueError).
Proof.
  apply (malformed_token_escapes Sample.env
           (Sample.button Sample.tg_bob "verify_1_x_1") "verify_1_x_1"
           Sample.world Sample.bob).
  - reflexivity.
  - reflexivity.
  - reflexivity.
  - by eexists.
  - right. split; reflexivity.
Defined.

(** Bob claims Ann's promotion: one credit the first time, the notice and
    nothing else the second time. *)
Lemma second_claim_pays_nothing_witness :
  let upd := Sample.button Sample.tg_bob "claim_1_1" in
  let w1 := (handle_claim_promo Sample.env upd "claim_1_1" Sample.world).1 in
  credits <$> users (w_db w1) !! 2 = Some 6
  /\ handle_claim_promo Sample.env upd "claim_01_3" w1
     = (mkWorld (w_db w1) (user_data w1)
          (trace w1 ++ [Called (AnswerCallback (Some MsgAlreadyCompleted) true)]),
        Ok tt).
Proof.
  split; [reflexivity|].
  apply (second_claim_pays_nothing Sample.env
           (Sample.button Sample.tg_bob "claim_1_1") "claim_1_1" "claim_01_3"
           Sample.world _ 1 1 3).
  - reflexivity.
  - reflexivity.
  - reflexivity.
Defined.

(** A promotion funded with 3 credits and claimed 5 times ends at 0. *)
Lemma budget_after_decrements_witness :
  let pid := next_promo_id Sample.db in
  promotions
    (Nat.iter 5 (decrement_promo_budget pid)
       (add_promotion 2 "force_join" 3 (Some (-1001)) None None None None Sample.db))
    !! pid
  = Some (mkPromotion 2 "force_join" (Some (-1001)) None None 0 None None).
Proof.
  apply (budget_after_decrements Sample.db 2 "force_join" 3 (Some (-1001))
           None None None None 5).
  lia.
Defined.

(** Two admin-elevated groups and a limit of 10: exactly two ids. *)
Lemma samples_distinct_bounded_eligible_witness :
  length (get_random_groups [1; 0]%nat 10 Sample.db) = 2%nat
  /\ NoDup (get_random_users_for_broadcast [5]%nat 1 10 Sample.db).
Proof.
  pose proof (samples_distinct_bounded_eligible [1; 0]%nat [5]%nat 10 1 Sample.db
                ltac:(lia)) as [(_ & _ & Hlen & _) (Hnd & _)].
  split; [exact Hlen | exact Hnd].
Defined.

(** Ann, balance 10 and bonus 2, after one reset. *)
Lemma execute_daily_reset_account_witness :
  exists u', users (execute_daily_reset Sample.db) !! 1 = Some u'
    /\ credits u' = 12 /\ referral_credits u' = 2 /\ daily_promo_runs u' = 5.
Proof.
  destruct (execute_daily_reset_account Sample.db 1 Sample.ann eq_refl)
    as (u' & Hu' & Hc & Hr & Hd & _).
  exists u'. repeat split; assumption.
Defined.

(** Bob has 5 credits and asks for 50. *)
Lemma get_promotion_budget_rejects_witness :
  get_promotion_budget Sample.env (Sample.message Sample.tg_bob "50") Sample.world
  = (mkWorld Sample.db ∅ [Called (ReplyText (MsgInvalidAmount 5))], Ok AWAIT_BUDGET).
Proof.
  apply (get_promotion_budget_rejects Sample.env
           (Sample.message Sample.tg_bob "50") "50" 2 500 Sample.world Sample.bob).
  - reflexivity.
  - reflexivity.
  - simpl. right. reflexivity.
Defined.

(** Dan follows his own referral link: Ann, whose id the link would
    otherwise have named, keeps her row, bonus included. *)
Lemma referral_bonus_excludes_self_witness :
  users (w_db (check_user Sample.env (Sample.start_with "4") Sample.world).1) !! 1
  = Some Sample.ann.
Proof.
  apply (proj2 (proj1 (referral_bonus_excludes_self Sample.env
                         (Sample.start_with "4") Sample.world eq_refl)
                  eq_refl) 1 Sample.ann).
  reflexivity.
Defined.

(* ===================================================================== *)
(** * Further properties of the queries *)
(* ===================================================================== *)

(** ** Daily runs *)

Lemma set_daily_promo_runs_same (u : User) :
  set_daily_promo_runs (daily_promo_runs u) u = u.
Proof. by destruct u. Qed.

Lemma set_daily_promo_runs_twice (a b : Z) (u : User) :
  set_daily_promo_runs a (set_daily_promo_runs b u) = set_daily_promo_runs a u.
Proof. by destruct u. Qed.

(** X1.  Using a daily run takes one off the counter while it is above
    zero and does nothing at zero: after [n] uses an account that had
    [r >= 0] runs has [max 0 (r - n)], every other column as before. *)
Theorem use_promo_run_floor (d : DB) (user_id : Z) (u : User) (n : nat) :
  users d !! user_id = Some u ->
  0 <= daily_promo_runs u ->
  users (Nat.iter n (use_promo_run user_id) d) !! user_id
  = Some (set_daily_promo_runs (Z.max 0 (daily_promo_runs u - Z.of_nat n)) u).
Proof.
  intros Hu Hr. induction n as [|n IH].
  - simpl. rewrite Hu. f_equal.
    replace (Z.max 0 (daily_promo_runs u - Z.of_nat 0)) with (daily_promo_runs u) by lia.
    by rewrite set_daily_promo_runs_same.
  - rewrite Nat.iter_succ. unfold use_promo_run at 1. simpl.
    rewrite lookup_alter_eq, IH. simpl. f_equal.
    destruct (Z.ltb_spec 0 (Z.max 0 (daily_promo_runs u - Z.of_nat n))).
    + rewrite set_daily_promo_runs_twice. f_equal. lia.
    + f_equal. lia.
Qed.

(** ** Promotion ids *)

(** The largest rowid the table has held bounds the sequence entry and
    every stored id, and is one of them. *)
Lemma largest_rowid_spec (seq : Z) (m : gmap Z Promotion) :
  let r := map_fold (fun k _ acc => Z.max k acc) seq m in
  seq <= r
  /\ (forall k p, m !! k = Some p -> k <= r)
  /\ (r = seq \/ is_Some (m !! r)).
Proof.
  apply (map_fold_weak_ind
           (fun r m => seq <= r
                       /\ (forall k p, m !! k = Some p -> k <= r)
                       /\ (r = seq \/ is_Some (m !! r)))).
  - split; [lia|]. split; [|by left]. intros k p. by rewrite lookup_empty.
  - intros i x m' r Hi (Hseq & Hall & Hin). split; [lia|]. split.
    + intros k p. rewrite lookup_insert_Some.
      intros [[<- _]|[_ Hk]]; [lia|]. specialize (Hall k p Hk). lia.
    + destruct (Z.max_spec i r) as [[_ ->]|[_ ->]].
      * destruct Hin as [->|[y Hy]]; [by left|right].
        destruct (decide (i = r)) as [->|Hne]; [congruence|].
        rewrite lookup_insert_ne by done. eauto.
      * right. rewrite lookup_insert_eq. eauto.
Qed.

(** X2.  Creating a promotion never touches the promotions that exist:
    the new row gets an id above every stored id and above every id
    handed out before, the old rows stay as they are, and the next
    promotion will get the id after it. *)
Theorem add_promotion_fresh
    (d : DB) (owner : Z) (ptype : string) (bud : Z) (chan : option Z)
    (text url : option string) (chat mid : option Z) :
  let d' := add_promotion owner ptype bud chan text url chat mid d in
  let pid := next_promo_id d in
  promotions d !! pid = None
  /\ promo_seq d < pid
  /\ (forall k p, promotions d !! k = Some p ->
        k < pid /\ promotions d' !! k = Some p)
  /\ promotions d' !! pid = Some (mkPromotion owner ptype chan text url bud chat mid)
  /\ next_promo_id d' = pid + 1.
Proof.
  intros d' pid.
  destruct (largest_rowid_spec (promo_seq d) (promotions d)) as (Hseq & Hall & _).
  assert (Hlt : forall k p, promotions d !! k = Some p -> k < pid).
  { intros k p Hk. specialize (Hall k p Hk). unfold pid, next_promo_id. lia. }
  assert (Hnone : promotions d !! pid = None).
  { destruct (promotions d !! pid) as [p|] eqn:Hp; [|done].
    specialize (Hlt pid p Hp). lia. }
  split; [done|]. split; [unfold pid, next_promo_id; lia|]. split; [|split].
  - intros k p Hk. split; [eauto|]. simpl.
    rewrite lookup_insert_ne; [done|]. specialize (Hlt k p Hk). fold pid. lia.
  - simpl. apply lookup_insert_eq.
  - pose proof (largest_rowid_spec pid
                  (<[pid := mkPromotion owner ptype chan text url bud chat mid]>
                     (promotions d))) as Hnext.
    cbv zeta in Hnext. destruct Hnext as (Hge & Hle & Hor).
    change (next_promo_id d')
      with (1 + map_fold (fun k _ acc => Z.max k acc) pid
                  (<[pid := mkPromotion owner ptype chan text url bud chat mid]>
                     (promotions d))).
    destruct Hor as [Heq|[y Hy]]; [lia|].
    apply lookup_insert_Some in Hy as [[Hy _]|[Hne Hy]]; [lia|].
    specialize (Hlt _ _ Hy). lia.
Qed.

(** ** Claim rows *)

(** X3.  Recording a claim makes exactly that pair claimed: the pair
    reads as claimed afterwards, every other pair reads as before, and
    recording it once more changes nothing. *)
Theorem claim_promo_has_claimed (user_id promo_id : Z) (d : DB) :
  has_claimed_promo user_id promo_id (claim_promo user_id promo_id d) = true
  /\ (forall u p, (u, p) <> (user_id, promo_id) ->
        has_claimed_promo u p (claim_promo user_id promo_id d)
        = has_claimed_promo u p d)
  /\ claim_promo user_id promo_id (claim_promo user_id promo_id d)
     = claim_promo user_id promo_id d.
Proof.
  split; [|split].
  - apply bool_decide_eq_true. simpl. set_solver.
  - intros u p Hne. unfold has_claimed_promo. simpl.
    apply bool_decide_ext. rewrite elem_of_union, elem_of_singleton. tauto.
  - unfold claim_promo, set_claimed_promos. simpl. f_equal.
    apply set_eq. intros x. rewrite !elem_of_union. tauto.
Qed.

(** ** Groups *)

(** X4.  Registering a group again keeps the account that added it
    first and only replaces the admin flag; other groups are untouched;
    and a group whose flag is off is never drawn for a group share,
    whatever the random order and the limit. *)
Theorem add_group_upsert (group_id adder : Z) (admin : bool) (d : DB) :
  let d' := add_group group_id adder admin d in
  get_group group_id d'
  = Some (mkGroup (match get_group group_id d with
                   | Some g => added_by_user_id g
                   | None => adder
                   end) admin)
  /\ (forall g, g <> group_id -> get_group g d' = get_group g d)
  /\ (admin = false ->
      forall draws limit, group_id ∉ get_random_groups draws limit d').
Proof.
  intros d'.
  assert (Hrow : get_group group_id d'
                 = Some (mkGroup (match get_group group_id d with
                                  | Some g => added_by_user_id g
                                  | None => adder
                                  end) admin)).
  { unfold d', add_group, get_group.
    destruct (groups d !! group_id); simpl; apply lookup_insert_eq. }
  split; [done|]. split.
  - intros g Hg. unfold d', add_group, get_group.
    destruct (groups d !! group_id); simpl; by rewrite lookup_insert_ne.
  - intros -> draws limit Hin.
    apply random_keys_elem in Hin as (row & Hlook & Hadm).
    unfold get_group in Hrow. rewrite Hrow in Hlook. by injection Hlook as <-.
Qed.

(** ** Feature flags *)

(** X5.  Setting a flag changes what is read for that flag only, and
    only if the flag is stored: a name that was never seeded stays off
    whatever it is set to. *)
Theorem set_feature_flag_get (name name' : string) (enabled : bool) (d : DB) :
  get_feature_flag name' (set_feature_flag name enabled d)
  = if bool_decide (name' = name /\ is_Some (feature_flags d !! name))
    then enabled
    else get_feature_flag name' d.
Proof.
  unfold get_feature_flag, set_feature_flag. simpl.
  rewrite lookup_alter. case_decide as Hn.
  - subst name'. destruct (feature_flags d !! name) as [b|] eqn:Hb; simpl.
    + by rewrite bool_decide_eq_true_2 by eauto.
    + rewrite bool_decide_eq_false_2; [done|]. intros [_ [? ?]]. done.
  - rewrite bool_decide_eq_false_2; [done|]. intros [-> _]. done.
Qed.

Lemma seed_flag_lookup (m : gmap string bool) (name n : string) :
  seed_flag m name !! n
  = match m !! n with
    | Some b => Some b
    | None => if bool_decide (n = name) then Some true else None
    end.
Proof.
  unfold seed_flag. destruct (m !! name) as [b|] eqn:Hb.
  - destruct (m !! n) as [b'|] eqn:Hn; [done|].
    rewrite bool_decide_eq_false_2; [done|]. intros ->. congruence.
  - rewrite lookup_insert. case_decide as Hd.
    + subst n. by rewrite Hb, bool_decide_eq_true_2.
    + rewrite bool_decide_eq_false_2 by done. by destruct (m !! n).
Qed.

Lemma initialize_database_lookup (d : DB) (n : string) :
  feature_flags (initialize_database d) !! n
  = match feature_flags d !! n with
    | Some b => Some b
    | None => if bool_decide (n ∈ flags) then Some true else None
    end.
Proof.
  unfold initialize_database, flags. simpl. rewrite !seed_flag_lookup.
  destruct (feature_flags d !! n) as [b|]; [done|].
  repeat case_bool_decide; try done; exfalso.
  all: repeat match goal with
       | H : _ ∈ _ :: _ |- _ => apply elem_of_cons in H as [H|H]
       | H : _ ∈ [] |- _ => by apply elem_of_nil in H
       | H : ¬ (_ ∈ _) |- _ => apply H; set_solver
       end; try done.
Qed.

(** X6.  Starting the bot on an existing database seeds the three flags
    that are missing as enabled and leaves a flag that is stored, be it
    switched off, as it is; every table but the flags is untouched, and
    a second start changes nothing. *)
Theorem initialize_database_keeps_flags (d : DB) :
  (forall n, get_feature_flag n (initialize_database d)
             = match feature_flags d !! n with
               | Some b => b
               | None => bool_decide (n ∈ flags)
               end)
  /\ users (initialize_database d) = users d
  /\ groups (initialize_database d) = groups d
  /\ promotions (initialize_database d) = promotions d
  /\ claimed_promos (initialize_database d) = claimed_promos d
  /\ initialize_database (initialize_database d) = initialize_database d.
Proof.
  split.
  { intros n. unfold get_feature_flag. rewrite initialize_database_lookup.
    destruct (feature_flags d !! n); [done|]. by case_bool_decide. }
  repeat (split; [done|]).
  unfold initialize_database at 1, set_feature_flags.
  destruct (initialize_database d) as [us gs ps sq cs fs] eqn:Hd. simpl. f_equal.
  apply map_eq. intros n.
  pose proof (initialize_database_lookup (mkDB us gs ps sq cs fs) n) as Hn.
  unfold initialize_database in Hn. simpl in Hn. rewrite Hn.
  destruct (fs !! n) as [b|] eqn:Hb; [done|].
  case_bool_decide as Hin; [|done]. exfalso.
  pose proof (initialize_database_lookup d n) as Hn'.
  rewrite Hd in Hn'. simpl in Hn'. rewrite Hb in Hn'.
  destruct (feature_flags d !! n); [done|]. by rewrite bool_decide_eq_true_2 in Hn'.
Qed.

(** ** The leaderboard *)

#[global] Instance more_views_total : Total more_views.
Proof. intros a b. unfold more_views. lia. Qed.

#[global] Instance more_views_trans : Transitive more_views.
Proof. intros a b c. unfold more_views. lia. Qed.

(** X7.  The leaderboard has at most ten lines, each the name and the
    view count of an account with at least one view, in order of
    falling view counts; and an account with views that is left out has
    no more views than any account listed, the list being full. *)
Theorem get_leaderboard_top_ten (draws : list nat) (d : DB) :
  let board := get_leaderboard draws d in
  (length board <= 10)%nat
  /\ (forall line, line ∈ board ->
        0 < line.2
        /\ exists k u, users d !! k = Some u
                       /\ line = (username u, clicks_received u))
  /\ (forall i j a b, (i < j)%nat -> board !! i = Some a -> board !! j = Some b ->
        b.2 <= a.2)
  /\ (forall k u, users d !! k = Some u -> 0 < clicks_received u ->
        (username u, clicks_received u) ∈ board
        \/ (length board = 10%nat
            /\ forall line, line ∈ board -> clicks_received u <= line.2)).
Proof.
  intros board. unfold get_leaderboard in board.
  set (viewed := filter (fun row : Z * User => 0 < clicks_received row.2) (users d))
    in board.
  set (sorted := merge_sort more_views (order_by_random draws (map_to_list viewed)))
    in board.
  set (line := fun row : Z * User => (username row.2, clicks_received row.2))
    in board.
  assert (Hsorted : StronglySorted more_views sorted).
  { apply StronglySorted_merge_sort; apply _. }
  assert (Hperm : sorted ≡ₚ map_to_list viewed).
  { unfold sorted. by rewrite merge_sort_Permutation, order_by_random_perm. }
  assert (Hrow : forall k u, (k, u) ∈ sorted <->
            users d !! k = Some u /\ 0 < clicks_received u).
  { intros k u. rewrite Hperm, elem_of_map_to_list.
    unfold viewed. by rewrite map_lookup_filter_Some. }
  assert (Htake : sql_limit 10 sorted = take 10 sorted) by done.
  assert (Hsplit : sorted = (take 10 sorted ++ drop 10 sorted)%list)
    by by rewrite take_drop.
  split; [|split; [|split]].
  - unfold board. rewrite length_fmap, Htake, length_take. lia.
  - intros l Hl. unfold board in Hl. rewrite Htake in Hl.
    apply list_elem_of_fmap in Hl as ([k u] & -> & Hin).
    apply subseteq_take, Hrow in Hin as [Hu Hpos].
    split; [done|]. by exists k, u.
  - intros i j a b Hij Ha Hb. unfold board in Ha, Hb. rewrite Htake in Ha, Hb.
    rewrite list_lookup_fmap in Ha, Hb.
    destruct (take 10 sorted !! i) as [ra|] eqn:Hra; [|done].
    destruct (take 10 sorted !! j) as [rb|] eqn:Hrb; [|done].
    simpl in Ha, Hb. injection Ha as <-. injection Hb as <-.
    assert (Hs : StronglySorted more_views (take 10 sorted)).
    { rewrite Hsplit in Hsorted. by apply StronglySorted_app_1_l in Hsorted. }
    rewrite <- (take_drop (S i) (take 10 sorted)) in Hs.
    apply (StronglySorted_app_1_elem_of _ _ _ ra rb) in Hs; [done| |].
    + apply list_elem_of_lookup. exists i.
      by rewrite lookup_take_lt by lia.
    + apply list_elem_of_lookup. exists (j - S i)%nat.
      rewrite lookup_drop. by replace (S i + (j - S i))%nat with j by lia.
  - intros k u Hu Hpos.
    assert (Hin : (k, u) ∈ sorted) by by apply Hrow.
    rewrite Hsplit in Hin. apply elem_of_app in Hin as [Hin|Hin].
    + left. unfold board. rewrite Htake.
      by apply (list_elem_of_fmap_2 line) in Hin.
    + right. split.
      * unfold board. rewrite length_fmap, Htake, length_take.
        apply list_elem_of_lookup in Hin as [i Hi].
        apply lookup_lt_Some in Hi. rewrite length_drop in Hi. lia.
      * intros l Hl. unfold board in Hl. rewrite Htake in Hl.
        apply list_elem_of_fmap in Hl as (row & -> & Hrowin).
        rewrite Hsplit in Hsorted.
        by apply (StronglySorted_app_1_elem_of _ _ _ row (k, u)) in Hsorted.
Qed.

Lemma execute_weekly_reset_lookup (d : DB) (k : Z) :
  users (execute_weekly_reset d) !! k = set_clicks_received 0 <$> users d !! k.
Proof. simpl. by rewrite lookup_fmap. Qed.

(** X8.  The weekly reset empties the leaderboard, and costs nobody
    anything: every account is still there with its balance, its bonus,
    its runs and its premium status. *)
Theorem execute_weekly_reset_clears_board (d : DB) :
  (forall draws, get_leaderboard draws (execute_weekly_reset d) = [])
  /\ (forall k u, users d !! k = Some u ->
        users (execute_weekly_reset d) !! k = Some (set_clicks_received 0 u)).
Proof.
  split.
  - intros draws. unfold get_leaderboard.
    assert (Hempty : filter (fun row : Z * User => 0 < clicks_received row.2)
                       (users (execute_weekly_reset d)) = ∅).
    { apply map_empty. intros k. apply map_lookup_filter_None. right.
      intros u. rewrite execute_weekly_reset_lookup.
      destruct (users d !! k); [|done]. intros [= <-]. simpl. lia. }
    rewrite Hempty, map_to_list_empty.
    by destruct draws.
  - intros k u Hu. by rewrite execute_weekly_reset_lookup, Hu.
Qed.

(** ** Resets and premium status *)

Lemma execute_daily_reset_lookup (d : DB) (k : Z) :
  users (execute_daily_reset d) !! k
  = (fun u => set_daily_promo_runs (if is_premium u then 5 else 2)
                (set_credits (credits u + referral_credits u) u))
      <$> users d !! k.
Proof.
  simpl. rewrite !lookup_fmap. destruct (users d !! k) as [u|]; [|done].
  simpl. f_equal. by destruct u as [? ? ? ? [] ? ? ? ? ? ? ? ? ? ?].
Qed.

(** X9.  The daily reset is not idempotent: run [n] times it pays the
    referral bonus [n] times over, the bonus itself staying as it is;
    the run counter is, from the first run on, 5 for a premium account
    and 2 otherwise. *)
Theorem execute_daily_reset_iter (d : DB) (k : Z) (u : User) (n : nat) :
  users d !! k = Some u ->
  exists u', users (Nat.iter n execute_daily_reset d) !! k = Some u'
    /\ credits u' = credits u + Z.of_nat n * referral_credits u
    /\ referral_credits u' = referral_credits u
    /\ is_premium u' = is_premium u
    /\ ((0 < n)%nat -> daily_promo_runs u' = if is_premium u then 5 else 2).
Proof.
  intros Hu. induction n as [|n (u' & Hu' & Hc & Hr & Hp & Hd)].
  - exists u. simpl. repeat split; try done; lia.
  - eexists. rewrite Nat.iter_succ, execute_daily_reset_lookup, Hu'. simpl.
    split; [done|]. simpl. rewrite Hp.
    repeat split; try done. rewrite Hc, Hr. lia.
Qed.

(** X10.  Premium status is granted for any number of days that
    [datetime] can add to today, past dates included, and nothing but
    [remove_premium] takes it away: whatever the expiry date, the account
    is premium, with 5 runs, after any number of daily, weekly and
    image-allowance resets. *)
Theorem set_premium_persists
    (today user_id days : Z) (d d' : DB) (u : User) (jobs : list (DB -> DB)) :
  set_premium today user_id days d = Some d' ->
  users d !! user_id = Some u ->
  Forall (fun job => job = execute_daily_reset \/ job = execute_weekly_reset
                     \/ job = reset_all_premium_image_broadcasts) jobs ->
  exists u', users (foldr (fun job => job) d' jobs) !! user_id = Some u'
    /\ is_premium u' = true
    /\ premium_expiry u' = Some (today + days)
    /\ daily_promo_runs u' = 5
    /\ image_broadcasts_left u' = 100.
Proof.
  unfold set_premium. destruct (date_ok (today + days)); [|done].
  intros [= <-] Hu Hjobs. induction Hjobs as [|job jobs Hjob _ IH]; simpl.
  - rewrite lookup_alter_eq, Hu. simpl. eexists. by split.
  - destruct IH as (u' & Hu' & Hp & He & Hr & Hi).
    destruct Hjob as [->|[->| ->]].
    + rewrite execute_daily_reset_lookup, Hu'. simpl. eexists. split; [done|].
      simpl. by rewrite Hp.
    + rewrite execute_weekly_reset_lookup, Hu'. simpl. eexists. by split.
    + simpl. rewrite lookup_fmap, Hu'. simpl. rewrite Hp. eexists. by split.
Qed.

(** X11.  Removing premium status sets the runs back to 2 at once and
    keeps them there at every later daily reset, but leaves the image
    allowance that is left where it is. *)
Theorem remove_premium_effect (user_id : Z) (d : DB) (u : User) (n : nat) :
  users d !! user_id = Some u ->
  exists u', users (Nat.iter n execute_daily_reset (remove_premium user_id d))
               !! user_id = Some u'
    /\ is_premium u' = false
    /\ premium_expiry u' = None
    /\ daily_promo_runs u' = 2
    /\ image_broadcasts_left u' = image_broadcasts_left u.
Proof.
  intros Hu. induction n as [|n (u' & Hu' & Hp & He & Hr & Hi)].
  - simpl. rewrite lookup_alter_eq, Hu. simpl. eexists. by split.
  - rewrite Nat.iter_succ, execute_daily_reset_lookup, Hu'. simpl.
    eexists. split; [done|]. simpl. by rewrite Hp.
Qed.

Lemma execute_daily_reset_reset_images (d : DB) :
  execute_daily_reset (reset_all_premium_image_broadcasts d)
  = reset_all_premium_image_broadcasts (execute_daily_reset d).
Proof.
  unfold reset_all_premium_image_broadcasts at 2.
  unfold execute_daily_reset at 1. unfold set_users. simpl. f_equal.
  apply map_eq. intros k. rewrite !lookup_fmap.
  destruct (users d !! k) as [u|]; [|done]. simpl. f_equal.
  by destruct u as [? ? ? ? [] ? ? ? ? ? ? ? ? ? ?].
Qed.

(** X12.  The two jobs scheduled for midnight commute: whichever of the
    credit reset and the image-allowance reset runs first, the world is
    the same afterwards. *)
Theorem midnight_jobs_commute (w : World) :
  (daily_credit_reset ;; reset_image_broadcasts) w
  = (reset_image_broadcasts ;; daily_credit_reset) w.
Proof.
  unfold daily_credit_reset, reset_image_broadcasts. run.
  by rewrite execute_daily_reset_reset_images.
Qed.

(** ** Recipients *)

(** X13.  When the limit is at least the number of eligible accounts the
    broadcast sample is all of them, in some order: every account that
    is not banned and is not the sender gets its copy. *)
Theorem get_random_users_for_broadcast_all
    (draws : list nat) (exclude_user_id limit : Z) (d : DB) :
  Z.of_nat (size (filter (fun row => broadcast_eligible exclude_user_id row)
                    (users d))) <= limit ->
  forall k u, users d !! k = Some u -> k <> exclude_user_id -> is_banned u = false ->
    k ∈ get_random_users_for_broadcast draws exclude_user_id limit d.
Proof.
  intros Hlimit k u Hu Hk Hban. unfold get_random_users_for_broadcast.
  set (elig := filter (fun row => broadcast_eligible exclude_user_id row) (users d))
    in *.
  assert (Hall : sql_limit limit (order_by_random draws (map_to_list elig))
                 = order_by_random draws (map_to_list elig)).
  { unfold sql_limit. destruct (limit <? 0); [done|].
    apply take_ge. rewrite order_by_random_perm, length_map_to_list. lia. }
  rewrite Hall. apply list_elem_of_fmap. exists (k, u). split; [done|].
  rewrite order_by_random_perm. apply elem_of_map_to_list.
  apply map_lookup_filter_Some. split; [done|].
  unfold broadcast_eligible. simpl. rewrite Hban.
  apply Is_true_true, andb_true_iff. split; [|done].
  by apply negb_true_iff, Z.eqb_neq.
Qed.

Lemma get_all_user_ids_elem (d : DB) (k : Z) :
  k ∈ get_all_user_ids d <-> exists u, users d !! k = Some u /\ is_banned u = false.
Proof.
  unfold get_all_user_ids. rewrite list_elem_of_fmap. split.
  - intros ([k' u] & -> & Hin).
    apply elem_of_map_to_list, map_lookup_filter_Some in Hin as [Hu Hb].
    exists u. split; [done|]. simpl in Hb. by destruct (is_banned u).
  - intros (u & Hu & Hb). exists (k, u). split; [done|].
    apply elem_of_map_to_list, map_lookup_filter_Some. split; [done|].
    simpl. by rewrite Hb.
Qed.

(** X14.  Banning an account takes it off both recipient lists, the
    admin broadcast and the premium image broadcast, and lifting the ban
    puts it back on the first; the ban changes no other column and no
    other account. *)
Theorem ban_user_recipients (user_id : Z) (d : DB) (u : User) :
  users d !! user_id = Some u ->
  (user_id ∉ get_all_user_ids (ban_user user_id true d))
  /\ (forall draws exclude limit,
        user_id ∉ get_random_users_for_broadcast draws exclude limit
                    (ban_user user_id true d))
  /\ user_id ∈ get_all_user_ids (ban_user user_id false (ban_user user_id true d))
  /\ users (ban_user user_id true d) !! user_id = Some (set_is_banned true u)
  /\ (forall k, k <> user_id ->
        users (ban_user user_id true d) !! k = users d !! k).
Proof.
  intros Hu.
  assert (Hrow : users (ban_user user_id true d) !! user_id
                 = Some (set_is_banned true u)).
  { simpl. by rewrite lookup_alter_eq, Hu. }
  split; [|split; [|split; [|split]]].
  - rewrite get_all_user_ids_elem. intros (u' & Hu' & Hb).
    rewrite Hrow in Hu'. by injection Hu' as <-.
  - intros draws exclude limit Hin.
    apply random_keys_elem in Hin as (u' & Hu' & Hok).
    rewrite Hrow in Hu'. injection Hu' as <-.
    apply Is_true_true in Hok. unfold broadcast_eligible in Hok. simpl in Hok.
    by rewrite andb_false_r in Hok.
  - rewrite get_all_user_ids_elem. eexists. split.
    + simpl. rewrite !lookup_alter_eq, Hu. simpl. done.
    + done.
  - done.
  - intros k Hk. simpl. by rewrite lookup_alter_ne.
Qed.

(* ===================================================================== *)
(** * Further properties of the handlers *)
(* ===================================================================== *)

(** ** Banned accounts *)

(** X15.  Whatever button a banned account presses, a claim or verify
    token included, the dispatcher acknowledges the press, shows the ban
    notice and stops: the database and the scratch data are as before. *)
Theorem banned_button_changes_nothing
    (env : Env) (upd : Update) (data : string) (w : World) (u : User) :
  content upd = CallbackQuery data ->
  users (w_db w) !! uid upd = Some u ->
  is_banned u = true ->
  let w' := (button_handler env upd w).1 in
  w_db w' = w_db w
  /\ user_data w' = user_data w
  /\ (is_Some (transport env (AnswerCallback None false)) ->
      trace w' = (trace w ++ [Called (AnswerCallback None false);
                              Called (AnswerCallback (Some MsgBanned) true)])%list).
Proof.
  intros Hc Hu Hban w'. unfold w', button_handler, check_user. rewrite Hc. run.
  destruct (transport env (AnswerCallback None false)) as [ack|]; simpl.
  - rewrite Hu, Hban. simpl.
    destruct (transport env (AnswerCallback (Some MsgBanned) true)); simpl;
      rewrite <- app_assoc; by repeat split.
  - repeat split; try done.
Qed.

(** ** Verifying a channel join *)

Lemma verify_token_Some (env : Env) (data : string) (promo_id channel promoter_id : Z) :
  verify_token env data = Some (promo_id, channel, promoter_id) ->
  exists x a b c,
    Py.split "_" data = [x; a; b; c]
    /\ Py.int (int_max_str_digits env) a = Some promo_id
    /\ Py.int (int_max_str_digits env) b = Some channel
    /\ Py.int (int_max_str_digits env) c = Some promoter_id.
Proof.
  unfold verify_token.
  destruct (Py.split "_" data) as [|x [|a [|b [|c [|? ?]]]]]; try done.
  destruct (Py.int _ a) as [pa|] eqn:Ha; [|done].
  destruct (Py.int _ b) as [pb|] eqn:Hb; [|done].
  destruct (Py.int _ c) as [pc|] eqn:Hc; [|done].
  intros ?; simplify_eq. by exists x, a, b, c.
Qed.

(** X16.  The verify button pays members only: when Telegram cannot
    tell the membership, or tells a status other than member,
    administrator or creator, the database is left as it is (no claim
    row, no budget decrement, no reward, no view), so that the button can
    be pressed again after joining. *)
Theorem verify_non_member_unpaid
    (env : Env) (upd : Update) (data : string) (w : World)
    (promo_id channel promoter_id : Z) :
  verify_token env data = Some (promo_id, channel, promoter_id) ->
  match member_status env channel (uid upd) with
  | Some status => is_member status = false
  | None => True
  end ->
  let w' := (handle_verify_promo env upd data w).1 in
  w_db w' = w_db w /\ user_data w' = user_data w.
Proof.
  intros (x & a & b & c & Hsplit & Ha & Hb & Hc)%verify_token_Some Hnot w'.
  unfold w', handle_verify_promo, get_chat_member. rewrite Hsplit. run.
  rewrite Ha, Hb, Hc. simpl.
  destruct (sqlite_int promo_id); simpl; [|done].
  destruct (has_claimed_promo _ _ _); simpl.
  - by destruct (transport env _).
  - destruct (member_status env channel (uid upd)) as [status|]; simpl.
    + rewrite Hnot. simpl. destruct (transport env _); simpl; [done|].
      by destruct (transport env _).
    + by destruct (transport env _).
Qed.

(** X17.  A member's first verification records the claim, takes one
    off the promotion's budget if there is any, pays 2 credits (4 to a
    premium account) and counts a view for the promoter. *)
Theorem verify_member_paid
    (env : Env) (upd : Update) (data status : string) (w : World)
    (promo_id channel promoter_id : Z) :
  verify_token env data = Some (promo_id, channel, promoter_id) ->
  sqlite_int promo_id = true ->
  sqlite_int promoter_id = true ->
  has_claimed_promo (uid upd) promo_id (w_db w) = false ->
  member_status env channel (uid upd) = Some status ->
  is_member status = true ->
  w_db (handle_verify_promo env upd data w).1
  = increment_clicks_received promoter_id
      (update_user_credits (uid upd) (reward_of 2 (get_user (uid upd) (w_db w)))
         (decrement_promo_budget promo_id
            (claim_promo (uid upd) promo_id (w_db w)))).
Proof.
  intros (x & a & b & c & Hsplit & Ha & Hb & Hc)%verify_token_Some
         Hp Hq Hfresh Hstatus Hmember.
  unfold handle_verify_promo, get_chat_member. rewrite Hsplit. run.
  rewrite Ha, Hb, Hc. simpl. rewrite Hp. simpl. rewrite Hfresh. simpl.
  rewrite Hstatus. simpl. rewrite Hmember. simpl. rewrite Hq. simpl.
  destruct (transport env (EditMessageText (MsgVerified _))); simpl.
  - by destruct (transport env (SendMessage _ _ _)).
  - by destruct (transport env (EditMessageText MsgVerifyError)).
Qed.

(** X18.  A promotion the account has claimed, by whichever button, is
    not paid again by the verify button: the handler answers with the
    already-completed notice without asking Telegram for the membership
    and leaves the database as it is. *)
Theorem verify_after_claim_pays_nothing
    (env : Env) (upd : Update) (data : string) (w : World)
    (promo_id channel promoter_id : Z) :
  verify_token env data = Some (promo_id, channel, promoter_id) ->
  sqlite_int promo_id = true ->
  has_claimed_promo (uid upd) promo_id (w_db w) = true ->
  let notice_call := AnswerCallback (Some MsgAlreadyCompleted) true in
  handle_verify_promo env upd data w
  = (mkWorld (w_db w) (user_data w) (trace w ++ [Called notice_call]),
     match transport env notice_call with
     | Some _ => Ok tt
     | None => Raise Py.TelegramError
     end).
Proof.
  intros (x & a & b & c & Hsplit & Ha & Hb & Hc)%verify_token_Some Hp Hclaimed.
  cbv zeta. unfold handle_verify_promo. rewrite Hsplit. run.
  rewrite Ha, Hb, Hc. simpl. rewrite Hp. simpl. rewrite Hclaimed. simpl.
  by destruct (transport env _).
Qed.

(** ** Creating a promotion *)

(** X19.  A budget between 1 and the balance creates the promotion
    before anything is sent: the new row gets the next promotion id, the
    submitted budget and the account's saved content, and the balance
    goes down by exactly the budget, so it stays at or above zero.  Any
    saved kind other than [normal] makes a force-join promotion. *)
Theorem get_promotion_budget_creates
    (env : Env) (upd : Update) (text : string) (chat mid : Z) (w : World)
    (u : User) (bud : Z) (ptype : pyval) :
  content upd = Message text chat mid ->
  Py.int (int_max_str_digits env) text = Some bud ->
  users (w_db w) !! uid upd = Some u ->
  0 < bud <= credits u ->
  sqlite_int bud = true ->
  user_data w !! "promo_type_to_create" = Some ptype ->
  let created :=
    if bool_decide (ptype = VStr "normal") then
      mkPromotion (uid upd) "normal" None (normal_promo_text u) (normal_promo_url u)
        bud (normal_promo_chat_id u) (normal_promo_message_id u)
    else
      mkPromotion (uid upd) "force_join" (force_join_channel_id u) None None
        bud None None in
  let w' := (get_promotion_budget env upd w).1 in
  promotions (w_db w') = <[next_promo_id (w_db w) := created]> (promotions (w_db w))
  /\ users (w_db w') = <[uid upd := set_credits (credits u - bud) u]> (users (w_db w))
  /\ 0 <= credits u - bud.
Proof.
  intros Hmsg Hint Hu Hbud Hsql Hptype created w'.
  assert (Hdb : w_db w'
                = update_user_credits (uid upd) (- bud)
                    (if bool_decide (ptype = VStr "normal") then
                       add_promotion (uid upd) "normal" bud None
                         (normal_promo_text u) (normal_promo_url u)
                         (normal_promo_chat_id u) (normal_promo_message_id u) (w_db w)
                     else
                       add_promotion (uid upd) "force_join" bud
                         (force_join_channel_id u) None None None None (w_db w))).
  { unfold w', get_promotion_budget. rewrite Hmsg, Hint. run. rewrite Hu. simpl.
    destruct (Z.ltb_spec 0 bud); [|lia].
    destruct (Z.leb_spec bud (credits u)); [|lia]. simpl.
    rewrite Hptype. simpl. rewrite Hsql. simpl.
    destruct (bool_decide (ptype = VStr "normal")); simpl; rewrite Hmsg; simpl;
      (destruct (transport env (ReplyText (MsgPromotionCreated bud))); simpl; [|done]);
      match goal with
      | |- context [start env upd ?w1] =>
          destruct (start_existing env upd w1 (set_credits (credits u + - bud) u))
            as (tr & r & Hst);
          [simpl; by rewrite lookup_alter_eq, Hu|]
      end;
      rewrite Hst; by destruct r. }
  rewrite Hdb. unfold created.
  split; [by destruct (bool_decide (ptype = VStr "normal"))|].
  split; [|lia].
  assert (Halter : alter (fun u0 => set_credits (credits u0 + - bud) u0) (uid upd)
                     (users (w_db w))
                   = <[uid upd := set_credits (credits u - bud) u]> (users (w_db w))).
  { apply map_eq. intros k. destruct (decide (k = uid upd)) as [->|Hne].
    - by rewrite lookup_alter_eq, lookup_insert_eq, Hu.
    - by rewrite lookup_alter_ne, lookup_insert_ne. }
  by destruct (bool_decide (ptype = VStr "normal")).
Qed.

(** ** The premium image broadcast *)

(** X20.  A recipient count (of a size for which the price is computed
    exactly) that is not positive, exceeds the image allowance or costs
    more than the balance is answered with one error text, in that order
    of precedence; nothing is sent to anybody else, the database and the
    scratch data stay as they were, and the conversation keeps waiting
    for a count. *)
Theorem get_broadcast_count_rejects
    (env : Env) (upd : Update) (text : string) (chat mid : Z) (w : World)
    (u : User) (count : Z) :
  content upd = Message text chat mid ->
  Py.int (int_max_str_digits env) text = Some count ->
  users (w_db w) !! uid upd = Some u ->
  - 2 ^ 49 < count < 2 ^ 49 ->
  count <= 0 \/ image_broadcasts_left u < count \/ credits u < Py.ceil_div10 count ->
  let report :=
    if count <=? 0 then MsgMustBePositive
    else if image_broadcasts_left u <? count then
      MsgOnlyBroadcastTo (image_broadcasts_left u)
    else MsgInsufficientFunds (Py.ceil_div10 count) (credits u) in
  get_broadcast_count env upd w
  = (mkWorld (w_db w) (user_data w) (trace w ++ [Called (ReplyText report)]),
     match transport env (ReplyText report) with
     | Some _ => Ok AWAIT_BROADCAST_COUNT
     | None => Raise Py.TelegramError
     end).
Proof.
  intros Hmsg Hint Hu _ Hbad report. unfold get_broadcast_count, report.
  rewrite Hmsg, Hint. run.
  destruct (Z.leb_spec count 0).
  { rewrite Hmsg. simpl. by destruct (transport env _). }
  rewrite Hu. simpl.
  destruct (Z.ltb_spec (image_broadcasts_left u) count).
  { rewrite Hmsg. simpl. by destruct (transport env _). }
  destruct (Z.ltb_spec (credits u) (Py.ceil_div10 count)); [|lia].
  rewrite Hmsg. simpl. by destruct (transport env _).
Qed.

Lemma ceil_div10_bounds (count : Z) :
  0 < count -> 0 < Py.ceil_div10 count <= count.
Proof.
  intros Hc. unfold Py.ceil_div10.
  pose proof (Z.div_mod (- count) 10 ltac:(lia)) as Hdm.
  pose proof (Z.mod_pos_bound (- count) 10 ltac:(lia)) as Hmod.
  lia.
Qed.

Lemma delivered_le_limit (ok : Z -> bool) (draws : list nat) (excluded limit : Z) (d : DB) :
  0 <= limit ->
  0 <= Z.of_nat (length (List.filter ok
                           (get_random_users_for_broadcast draws excluded limit d)))
    <= limit.
Proof.
  intros Hl. split; [lia|].
  pose proof (random_keys_length
                (fun row : Z * User => Is_true (broadcast_eligible excluded row))
                draws limit (users d) Hl) as Hlen.
  fold (get_random_users_for_broadcast draws excluded limit d) in Hlen.
  pose proof (List.filter_length_le ok
                (get_random_users_for_broadcast draws excluded limit d)).
  lia.
Qed.

Lemma get_broadcast_count_db
    (env : Env) (upd : Update) (text : string) (chat mid : Z) (w : World)
    (u : User) (count : Z) (from_chat message : pyval) :
  content upd = Message text chat mid ->
  Py.int (int_max_str_digits env) text = Some count ->
  users (w_db w) !! uid upd = Some u ->
  0 < count < 2 ^ 49 ->
  count <= image_broadcasts_left u ->
  Py.ceil_div10 count <= credits u ->
  is_Some (transport env (ReplyText MsgStartingBroadcast)) ->
  user_data w !! "broadcast_chat_id" = Some from_chat ->
  user_data w !! "broadcast_message_id" = Some message ->
  w_db (get_broadcast_count env upd w).1
  = update_user_credits (uid upd) (- Py.ceil_div10 count)
      (use_image_broadcast_run (uid upd)
         (Z.of_nat (length (List.filter (delivers_copy env from_chat message)
                              (get_random_users_for_broadcast (random env) (uid upd)
                                 count (w_db w)))))
         (w_db w)).
Proof.
  intros Hmsg Hint Hu Hcount Hleft Hcost [m0 Hstart] Hchat Hmessage.
  unfold get_broadcast_count. rewrite Hmsg, Hint. run.
  destruct (Z.leb_spec count 0); [lia|]. rewrite Hu. simpl.
  destruct (Z.ltb_spec (image_broadcasts_left u) count); [lia|].
  destruct (Z.ltb_spec (credits u) (Py.ceil_div10 count)); [lia|].
  rewrite Hmsg. simpl. rewrite Hstart. simpl.
  rewrite sqlite_int_small by done. simpl.
  rewrite Hchat. simpl. rewrite Hmessage. simpl.
  match goal with
  | |- context [fan_out ?sd ?p ?fl ?ts ?a ?b ?w1] =>
      destruct (fan_out_run sd p fl _ (copy_to_user_run env from_chat message)
                  ts a b w1) as [tr Hfan];
      rewrite Hfan
  end.
  simpl. rewrite ?Hmsg. simpl.
  destruct (transport env (ReplyText (MsgBroadcastComplete _ _ _))); simpl; [|done].
  match goal with
  | |- context [start env upd ?w1] =>
      destruct (start_existing env upd w1
                  (set_credits (credits u - Py.ceil_div10 count)
                     (set_image_broadcasts_left
                        (image_broadcasts_left u
                         - Z.of_nat (length (List.filter (delivers_copy env from_chat message)
                                               (get_random_users_for_broadcast (random env)
                                                  (uid upd) count (w_db w))))) u)))
        as (tr' & r & Hst)
  end.
  { simpl. rewrite !lookup_alter_eq, Hu. simpl.
    unfold set_credits, set_image_broadcasts_left; simpl. do 2 f_equal. }
  rewrite Hst. by destruct r.
Qed.

(** X21.  A premium image broadcast that passes its checks never
    overdraws: afterwards the balance and the image allowance of the
    sender are still at or above zero, the allowance has gone down by at
    most the count asked for, and no other account, promotion, group or
    claim has changed. *)
Theorem get_broadcast_count_never_overdraws
    (env : Env) (upd : Update) (text : string) (chat mid : Z) (w : World)
    (u : User) (count : Z) (from_chat message : pyval) :
  content upd = Message text chat mid ->
  Py.int (int_max_str_digits env) text = Some count ->
  users (w_db w) !! uid upd = Some u ->
  0 < count < 2 ^ 49 ->
  count <= image_broadcasts_left u ->
  Py.ceil_div10 count <= credits u ->
  is_Some (transport env (ReplyText MsgStartingBroadcast)) ->
  user_data w !! "broadcast_chat_id" = Some from_chat ->
  user_data w !! "broadcast_message_id" = Some message ->
  let d' := w_db (get_broadcast_count env upd w).1 in
  (exists u', users d' !! uid upd = Some u'
     /\ 0 <= credits u' < credits u
     /\ 0 <= image_broadcasts_left u - count <= image_broadcasts_left u'
     /\ image_broadcasts_left u' <= image_broadcasts_left u)
  /\ (forall k, k <> uid upd -> users d' !! k = users (w_db w) !! k)
  /\ promotions d' = promotions (w_db w)
  /\ groups d' = groups (w_db w)
  /\ claimed_promos d' = claimed_promos (w_db w).
Proof.
  intros Hmsg Hint Hu Hcount Hleft Hcost Hstart Hchat Hmessage d'.
  unfold d'.
  rewrite (get_broadcast_count_db env upd text chat mid w u count from_chat message)
    by done.
  pose proof (ceil_div10_bounds count ltac:(lia)) as Hceil.
  pose proof (delivered_le_limit (delivers_copy env from_chat message) (random env)
                (uid upd) count (w_db w) ltac:(lia)) as Hs.
  simpl. split.
  - eexists. split.
    { rewrite !lookup_alter_eq, Hu. simpl. reflexivity. }
    simpl. lia.
  - split; [|done]. intros k Hk. by rewrite !lookup_alter_ne.
Qed.

(** ** Group shares *)

(** X22.  A group share that cannot go ahead costs nothing: when the
    account has no row, no run left or no saved link, or when no group
    has the bot as an administrator, the handler only tells the user so
    and leaves the database and the scratch data as they were. *)
Theorem execute_group_share_refused (env : Env) (upd : Update) (w : World) :
  match users (w_db w) !! uid upd with
  | None => True
  | Some u =>
      daily_promo_runs u <= 0
      \/ Py.truthy_str (normal_promo_url u) = false
      \/ get_random_groups (random env) (if is_premium u then 10 else 5) (w_db w) = []
  end ->
  let w' := (execute_group_share env upd w).1 in
  w_db w' = w_db w /\ user_data w' = user_data w.
Proof.
  intros Hrefused w'. unfold w', execute_group_share. run.
  destruct (users (w_db w) !! uid upd) as [u|] eqn:Hu; simpl.
  - destruct ((daily_promo_runs u <=? 0) || negb (Py.truthy_str (normal_promo_url u)))
      eqn:Hcheck; simpl.
    + destruct (content upd); simpl; by destruct (transport env _).
    + apply orb_false_iff in Hcheck as [Hruns Hurl].
      apply Z.leb_gt in Hruns. apply negb_false_iff in Hurl.
      destruct Hrefused as [?|[Hno|Hnone]]; [lia|congruence|].
      rewrite Hnone. destruct (content upd) eqn:Hc; simpl.
      * by destruct (transport env _).
      * destruct (transport env _); simpl; [|done].
        match goal with
        | |- context [start env upd ?w1] =>
            destruct (start_existing env upd w1 u Hu) as (tr & r & Hst)
        end.
        by rewrite Hst.
  - destruct (content upd); simpl; by destruct (transport env _).
Qed.

(** ** From the task to the reward *)

Lemma not_menu_action (data rest : string) (c : ascii) :
  data = String c rest ->
  c <> "p"%char -> c <> "s"%char -> c <> "e"%char -> c <> "r"%char ->
  c <> "l"%char -> c <> "a"%char -> c <> "m"%char ->
  data ∉ menu_actions.
Proof.
  intros -> ? ? ? ? ? ? ?. unfold menu_actions. intros Hin.
  repeat (apply elem_of_cons in Hin as [Heq|Hin]; [congruence|]).
  by apply elem_of_nil in Hin.
Qed.

(** X23.  The claim button as [tasks] writes it, pressed by a
    registered account that is not banned and has not claimed the
    promotion, reaches the claim handler with the same promotion and
    promoter: the claim is recorded, the reward is 1 credit (2 for a
    premium account) and the promoter gets one view, whether or not the
    promotion still exists or has budget left. *)
Theorem claim_button_pays
    (env : Env) (upd : Update) (data : string) (w : World) (u : User)
    (promo_id promoter_id : Z) :
  claim_callback_data env promo_id promoter_id = Some data ->
  content upd = CallbackQuery data ->
  users (w_db w) !! uid upd = Some u ->
  is_banned u = false ->
  is_Some (transport env (AnswerCallback None false)) ->
  sqlite_int promo_id = true ->
  sqlite_int promoter_id = true ->
  has_claimed_promo (uid upd) promo_id (w_db w) = false ->
  let d' := w_db (button_handler env upd w).1 in
  d' = increment_clicks_received promoter_id
         (update_user_credits (uid upd) (if is_premium u then 2 else 1)
            (decrement_promo_budget promo_id
               (claim_promo (uid upd) promo_id (w_db w))))
  /\ has_claimed_promo (uid upd) promo_id d' = true.
Proof.
  intros [Hpre Htoken]%claim_callback_data_decodes Hc Hu Hban [ack Hack]
    Hp Hq Hfresh d'.
  assert (Hd : d' = increment_clicks_received promoter_id
                      (update_user_credits (uid upd) (if is_premium u then 2 else 1)
                         (decrement_promo_budget promo_id
                            (claim_promo (uid upd) promo_id (w_db w))))).
  { unfold d', button_handler, check_user. rewrite Hc. run.
    rewrite Hack. simpl. rewrite Hu, Hban. simpl.
    destruct (startswith_cons _ _ _ Hpre) as (rest & Hdata & Hrest).
    rewrite bool_decide_eq_false_2 by (by eapply not_menu_action).
    subst data. simpl. rewrite Hrest.
    pose proof (handle_claim_promo_fresh env upd (String "c" rest)
                  (mkWorld (w_db w) (user_data w)
                     (trace w ++ [Called (AnswerCallback None false)]))
                  promo_id promoter_id Htoken Hp Hq Hfresh) as Hrun.
    simpl in Hrun. rewrite Hrun. unfold get_user, reward_of. rewrite Hu.
    by destruct (is_premium u). }
  split; [done|]. rewrite Hd. apply has_claimed_after_claim.
Qed.

Lemma get_random_promotion_Some (draws : list nat) (user_id : Z) (d : DB) (row : PromoRow) :
  get_random_promotion draws user_id d = Some row ->
  exists p, promotions d !! row_promo_id row = Some p
    /\ task_eligible user_id d (row_promo_id row, p) = true.
Proof.
  unfold get_random_promotion. intros Hrow.
  destruct (sql_limit 1 (order_by_random draws
              (map_to_list (filter (fun r => Is_true (task_eligible user_id d r))
                              (promotions d))))) as [|[k p] rest] eqn:Hrows;
    [done|].
  simpl in Hrow. injection Hrow as <-. simpl.
  assert (Hin : (k, p) ∈ sql_limit 1 (order_by_random draws
              (map_to_list (filter (fun r => Is_true (task_eligible user_id d r))
                              (promotions d))))) by (rewrite Hrows; left).
  apply random_rows_elem in Hin as [Hp Hok].
  exists p. split; [done|]. by apply Is_true_true in Hok.
Qed.

(** X24.  A claimed task is retired: whatever the random source, if
    the selector still offers the promotion after a first claim, then it
    is to an account other than the claimant, and the promotion had more
    than one unit of budget before the claim.  So the claimant is never
    offered it again, and a promotion whose last unit was claimed is
    offered to nobody. *)
Theorem claim_retires_task
    (env : Env) (upd : Update) (data : string) (w : World)
    (promo_id promoter_id : Z) (draws : list nat) (user_id : Z) (row : PromoRow) :
  claim_token env data = Some (promo_id, promoter_id) ->
  sqlite_int promo_id = true ->
  sqlite_int promoter_id = true ->
  has_claimed_promo (uid upd) promo_id (w_db w) = false ->
  let d' := w_db (handle_claim_promo env upd data w).1 in
  get_random_promotion draws user_id d' = Some row ->
  row_promo_id row = promo_id ->
  user_id <> uid upd
  /\ exists p, promotions (w_db w) !! promo_id = Some p /\ 1 < budget p.
Proof.
  intros Htoken Hp Hq Hfresh d' Hrow Hid.
  apply get_random_promotion_Some in Hrow as (p' & Hp' & Hok).
  unfold d' in Hp', Hok.
  rewrite (handle_claim_promo_fresh env upd data w promo_id promoter_id) in Hp', Hok
    by done.
  rewrite Hid in *. unfold task_eligible, has_claimed_promo in Hok. simpl in *.
  apply andb_true_iff in Hok as [Hok Hbudget].
  apply andb_true_iff in Hok as [_ Hclaimed].
  apply negb_true_iff, bool_decide_eq_false in Hclaimed.
  apply Z.ltb_lt in Hbudget. split.
  - intros ->. apply Hclaimed. set_solver.
  - destruct (promotions (w_db w) !! promo_id) as [p|] eqn:Hpromo.
    + rewrite lookup_alter_eq, Hpromo in Hp'. simpl in Hp'.
      injection Hp' as <-. exists p. split; [done|].
      destruct (Z.ltb_spec 0 (budget p)); simpl in *; lia.
    + by rewrite lookup_alter_eq, Hpromo in Hp'.
Qed.

(** ** Joining a group *)

Ltac group_run :=
  unfold mbind, GM_bind, mret, GM_ret, group_except_telegram, group_log_record,
    group_db_exec, group_db_query, group_send, group_api, get_group, get_user in *;
  simpl in *.

Lemma add_group_known (group_id adder : Z) (admin : bool) (d : DB) (g : Group) :
  groups d !! group_id = Some g ->
  users (add_group group_id adder admin d) = users d
  /\ groups (add_group group_id adder admin d) !! group_id
     = Some (mkGroup (added_by_user_id g) admin).
Proof.
  intros Hg. unfold add_group. rewrite Hg. simpl. by rewrite lookup_insert_eq.
Qed.

Lemma new_group_member_known (api : GroupApi) (upd : StatusUpdate) (w : GroupWorld)
    (g : Group) :
  groups (gw_db w) !! group_chat_id upd = Some g ->
  let d' := gw_db (new_group_member api upd w).1 in
  users d' = users (gw_db w)
  /\ exists g', groups d' !! group_chat_id upd = Some g'
       /\ added_by_user_id g' = added_by_user_id g.
Proof.
  intros Hg d'. unfold d', new_group_member. group_run.
  destruct (get_me api) as [bot|]; simpl; [|by eauto].
  destruct (bool_decide (bot ∈ new_chat_members upd)); simpl; [|by eauto].
  destruct (from_user_is_bot upd); simpl; [by eauto|].
  destruct (get_chat_member_status api (group_chat_id upd) bot) as [status|];
    simpl; [|by eauto].
  rewrite Hg.
  destruct (bool_decide (status = "administrator")); simpl.
  - destruct (is_admin g) eqn:Hadmin; simpl; [by eauto|].
    destruct (add_group_known (group_chat_id upd) (from_user_id upd) true (gw_db w) g Hg)
      as [Husers Hgroup].
    destruct (send_message api _ _); simpl; eauto.
  - destruct (send_message api _ _); simpl; eauto.
Qed.

(** X25.  A group pays its reward at most once: once a group is in the
    table, no later service message about it, whoever adds the bot and
    whatever Telegram answers, changes any account, and the group keeps
    the account that first added it. *)
Theorem known_group_never_pays
    (events : list (GroupApi * StatusUpdate)) (w : GroupWorld)
    (group_id : Z) (g : Group) :
  Forall (fun ev => group_chat_id ev.2 = group_id) events ->
  groups (gw_db w) !! group_id = Some g ->
  let d' := gw_db (new_group_members events w) in
  users d' = users (gw_db w)
  /\ exists g', groups d' !! group_id = Some g'
       /\ added_by_user_id g' = added_by_user_id g.
Proof.
  intros Hall. revert w g.
  induction Hall as [|[api upd] events Hid Hall IH]; intros w g Hg; simpl.
  - eauto.
  - simpl in Hid. subst group_id.
    destruct (new_group_member_known api upd w g Hg) as (Husers & g1 & Hg1 & Hadder).
    destruct (IH _ g1 Hg1) as (Husers' & g' & Hg' & Hadder').
    unfold new_group_members in *. simpl in *.
    split; [congruence|]. exists g'. split; [done|congruence].
Qed.

(** X26.  The first time the bot is added to a group by a person, the
    group is recorded with that person and the bot's administrator
    status, even when the size of the group cannot be fetched; the adder
    is paid (10 credits if premium, 5 otherwise) exactly when the bot is
    an administrator and the group has more than 600 members, and the
    payment does not depend on the messages being delivered. *)
Theorem new_group_member_first_add
    (api : GroupApi) (upd : StatusUpdate) (w : GroupWorld) (bot : Z) (status : string) :
  get_me api = Some bot ->
  bot ∈ new_chat_members upd ->
  from_user_is_bot upd = false ->
  groups (gw_db w) !! group_chat_id upd = None ->
  get_chat_member_status api (group_chat_id upd) bot = Some status ->
  let admin := bool_decide (status = "administrator") in
  let paid :=
    admin && match get_chat_member_count api (group_chat_id upd) with
             | Some member_count => 600 <? member_count
             | None => false
             end in
  let recorded := add_group (group_chat_id upd) (from_user_id upd) admin (gw_db w) in
  gw_db (new_group_member api upd w).1
  = (if paid then
       update_user_credits (from_user_id upd)
         (group_reward (users (gw_db w) !! from_user_id upd)) recorded
     else recorded)
  /\ groups recorded !! group_chat_id upd = Some (mkGroup (from_user_id upd) admin).
Proof.
  intros Hme Hin Hbot Hnew Hstatus admin paid recorded. split.
  - unfold paid, recorded, admin, new_group_member. group_run.
    rewrite Hme. simpl. rewrite bool_decide_eq_true_2 by done. simpl.
    rewrite Hbot. simpl. rewrite Hstatus. simpl. rewrite Hnew.
    destruct (bool_decide (status = "administrator")); simpl.
    + destruct (get_chat_member_count api (group_chat_id upd)) as [count|];
        simpl; [|done].
      assert (Husers : users (add_group (group_chat_id upd) (from_user_id upd) true (gw_db w))
                       = users (gw_db w)).
      { unfold add_group. by rewrite Hnew. }
      destruct (600 <? count); simpl.
      * rewrite Husers.
        destruct (send_message api (from_user_id upd) _); simpl; [|done].
        by destruct (send_message api (group_chat_id upd) _).
      * destruct (send_message api (from_user_id upd) _); simpl; [|done].
        by destruct (send_message api (group_chat_id upd) _).
    + by destruct (send_message api _ _).
  - unfold recorded, add_group. rewrite Hnew. simpl. by rewrite lookup_insert_eq.
Qed.

(** ** Submissions out of turn *)

(** X27.  A numeric budget from an account that has no row raises
    [TypeError], and a valid budget submitted when no promotion kind has
    been chosen raises [KeyError]; either way the handler stops before it
    writes or sends anything. *)
Theorem get_promotion_budget_raises
    (env : Env) (upd : Update) (text : string) (chat mid : Z) (w : World) (bud : Z) :
  content upd = Message text chat mid ->
  Py.int (int_max_str_digits env) text = Some bud ->
  match users (w_db w) !! uid upd with
  | None => True
  | Some u => 0 < bud <= credits u /\ user_data w !! "promo_type_to_create" = None
  end ->
  get_promotion_budget env upd w
  = (w, Raise match users (w_db w) !! uid upd with
              | None => Py.TypeError
              | Some _ => Py.KeyError
              end).
Proof.
  intros Hmsg Hint Hcase. unfold get_promotion_budget. rewrite Hmsg, Hint. run.
  destruct (users (w_db w) !! uid upd) as [u|]; simpl; [|done].
  destruct Hcase as [Hbud Hkind].
  destruct (Z.ltb_spec 0 bud); [|lia].
  destruct (Z.leb_spec bud (credits u)); [|lia]. simpl.
  by rewrite Hkind.
Qed.

(* ===================================================================== *)
(** * The further statements at work *)
(* ===================================================================== *)

(** Ann has 5 runs; seven group shares later she has none, not -2. *)
Lemma use_promo_run_floor_witness :
  users (Nat.iter 7 (use_promo_run 1) Sample.db) !! 1
  = Some (set_daily_promo_runs 0 Sample.ann).
Proof.
  apply (use_promo_run_floor Sample.db 1 Sample.ann 7).
  - reflexivity.
  - vm_compute; discriminate.
Defined.

(** Three resets in a row pay Ann's bonus of 2 three times. *)
Lemma execute_daily_reset_iter_witness :
  exists u', users (Nat.iter 3 execute_daily_reset Sample.db) !! 1 = Some u'
    /\ credits u' = 16.
Proof.
  destruct (execute_daily_reset_iter Sample.db 1 Sample.ann 3 eq_refl)
    as (u' & Hu' & Hc & _).
  exists u'. split; [exact Hu' | exact Hc].
Defined.

(** Bob is made premium for 30 days; the three jobs leave him premium. *)
Lemma set_premium_persists_witness :
  from_option
    (fun d' =>
       exists u',
         users (execute_daily_reset
                  (execute_weekly_reset (reset_all_premium_image_broadcasts d')))
           !! 2 = Some u'
         /\ is_premium u' = true /\ daily_promo_runs u' = 5)
    False (set_premium 739000 2 30 Sample.db).
Proof.
  destruct (set_premium 739000 2 30 Sample.db) as [d'|] eqn:Hset; simpl.
  - destruct (set_premium_persists 739000 2 30 Sample.db d' Sample.bob
                [execute_daily_reset; execute_weekly_reset;
                 reset_all_premium_image_broadcasts] Hset eq_refl)
      as (u' & Hu' & Hp & _ & Hr & _).
    { repeat constructor; tauto. }
    exists u'. split; [exact Hu'|]. split; [exact Hp | exact Hr].
  - vm_compute in Hset. discriminate Hset.
Defined.

(** Ann loses her premium status: 2 runs from now on, the allowance of
    100 images still hers. *)
Lemma remove_premium_effect_witness :
  exists u', users (Nat.iter 2 execute_daily_reset (remove_premium 1 Sample.db)) !! 1
             = Some u'
    /\ daily_promo_runs u' = 2 /\ image_broadcasts_left u' = 100.
Proof.
  destruct (remove_premium_effect 1 Sample.db Sample.ann 2 eq_refl)
    as (u' & Hu' & _ & _ & Hr & Hl).
  exists u'. split; [exact Hu'|]. split; [exact Hr | exact Hl].
Defined.

(** Ann broadcasts to up to 10 accounts: Cat is among them. *)
Lemma get_random_users_for_broadcast_all_witness :
  3 ∈ get_random_users_for_broadcast [2; 0; 1]%nat 1 10 Sample.db.
Proof.
  apply (get_random_users_for_broadcast_all [2; 0; 1]%nat 1 10 Sample.db)
    with (u := Sample.cat).
  - vm_compute; discriminate.
  - reflexivity.
  - discriminate.
  - reflexivity.
Defined.

Lemma ban_user_recipients_witness :
  2 ∉ get_all_user_ids (ban_user 2 true Sample.db).
Proof. exact (proj1 (ban_user_recipients 2 Sample.db Sample.bob eq_refl)). Defined.

(** Bob, banned, presses a claim button. *)
Lemma banned_button_changes_nothing_witness :
  let w := mkWorld (ban_user 2 true Sample.db) ∅ [] in
  w_db (button_handler Sample.env (Sample.button Sample.tg_bob "claim_1_1") w).1
  = ban_user 2 true Sample.db.
Proof.
  exact (proj1 (banned_button_changes_nothing Sample.env
                  (Sample.button Sample.tg_bob "claim_1_1") "claim_1_1"
                  (mkWorld (ban_user 2 true Sample.db) ∅ [])
                  (set_is_banned true Sample.bob) eq_refl eq_refl eq_refl)).
Defined.

(** Bob presses the verify button after leaving the channel. *)
Lemma verify_non_member_unpaid_witness :
  let env :=
    mkEnv Sample.delivers_all (fun _ _ => Some "left") [] 4300
      Sample.no_handler Sample.no_handler in
  w_db (handle_verify_promo env (Sample.button Sample.tg_bob "verify_1_-1001_1")
          "verify_1_-1001_1" Sample.world).1
  = Sample.db.
Proof.
  refine (proj1 (verify_non_member_unpaid
                   (mkEnv Sample.delivers_all (fun _ _ => Some "left") [] 4300
                      Sample.no_handler Sample.no_handler)
                   (Sample.button Sample.tg_bob "verify_1_-1001_1")
                   "verify_1_-1001_1" Sample.world 1 (-1001) 1 _ _)).
  - reflexivity.
  - reflexivity.
Defined.

(** Bob, a member of the channel, verifies: 2 credits on top of his 5. *)
Lemma verify_member_paid_witness :
  credits <$>
    users (w_db (handle_verify_promo Sample.env
                   (Sample.button Sample.tg_bob "verify_1_-1001_1")
                   "verify_1_-1001_1" Sample.world).1) !! 2
  = Some 7.
Proof.
  rewrite (verify_member_paid Sample.env
             (Sample.button Sample.tg_bob "verify_1_-1001_1")
             "verify_1_-1001_1" "member" Sample.world 1 (-1001) 1);
    reflexivity.
Defined.

(** Bob has claimed the promotion; the verify button only tells him so. *)
Lemma verify_after_claim_pays_nothing_witness :
  let w := mkWorld (claim_promo 2 1 Sample.db) ∅ [] in
  handle_verify_promo Sample.env (Sample.button Sample.tg_bob "verify_1_-1001_1")
    "verify_1_-1001_1" w
  = (mkWorld (claim_promo 2 1 Sample.db) ∅
       [Called (AnswerCallback (Some MsgAlreadyCompleted) true)],
     Ok tt).
Proof.
  apply (verify_after_claim_pays_nothing Sample.env
           (Sample.button Sample.tg_bob "verify_1_-1001_1") "verify_1_-1001_1"
           (mkWorld (claim_promo 2 1 Sample.db) ∅ []) 1 (-1001) 1);
    reflexivity.
Defined.

(** Ann spends 4 of her 10 credits on a promotion of her saved link. *)
Lemma get_promotion_budget_creates_witness :
  let w := mkWorld Sample.db {[ "promo_type_to_create" := VStr "normal" ]} [] in
  let w' := (get_promotion_budget Sample.env (Sample.message Sample.tg_ann "4") w).1 in
  promotions (w_db w') !! 2
  = Some (mkPromotion 1 "normal" None (Some "Visit my page")
            (Some "https://example.org") 4 None None)
  /\ credits <$> users (w_db w') !! 1 = Some 6.
Proof.
  destruct (get_promotion_budget_creates Sample.env (Sample.message Sample.tg_ann "4")
              "4" 1 500
              (mkWorld Sample.db {[ "promo_type_to_create" := VStr "normal" ]} [])
              Sample.ann 4 (VStr "normal"))
    as (Hp & Hu & _).
  - reflexivity.
  - reflexivity.
  - reflexivity.
  - split; [reflexivity | vm_compute; discriminate].
  - reflexivity.
  - reflexivity.
  - simpl. rewrite Hp, Hu. split; reflexivity.
Defined.

(** Ann may still send 100 images and asks for 500 recipients. *)
Lemma get_broadcast_count_rejects_witness :
  get_broadcast_count Sample.env (Sample.message Sample.tg_ann "500")
    Sample.world_broadcast
  = (mkWorld Sample.db (user_data Sample.world_broadcast)
       [Called (ReplyText (MsgOnlyBroadcastTo 100))],
     Ok AWAIT_BROADCAST_COUNT).
Proof.
  apply (get_broadcast_count_rejects Sample.env (Sample.message Sample.tg_ann "500")
           "500" 1 500 Sample.world_broadcast Sample.ann 500).
  - reflexivity.
  - reflexivity.
  - reflexivity.
  - split; reflexivity.
  - right. left. reflexivity.
Defined.

Lemma get_broadcast_count_never_overdraws_witness :
  exists u',
    users (w_db (get_broadcast_count Sample.env (Sample.message Sample.tg_ann "2")
                   Sample.world_broadcast).1) !! 1 = Some u'
    /\ 0 <= credits u' < 10.
Proof.
  destruct (get_broadcast_count_never_overdraws Sample.env
              (Sample.message Sample.tg_ann "2") "2" 1 500 Sample.world_broadcast
              Sample.ann 2 (VInt 1) (VInt 77))
    as ((u' & Hu' & Hc & _) & _).
  - reflexivity.
  - reflexivity.
  - reflexivity.
  - split; reflexivity.
  - vm_compute; discriminate.
  - vm_compute; discriminate.
  - by eexists.
  - reflexivity.
  - reflexivity.
  - exists u'. split; [exact Hu' | exact Hc].
Defined.

(** Bob has saved no link: his group share is refused. *)
Lemma execute_group_share_refused_witness :
  w_db (execute_group_share Sample.env
          (Sample.button Sample.tg_bob "execute_group_share_final") Sample.world).1
  = Sample.db.
Proof.
  refine (proj1 (execute_group_share_refused Sample.env
                   (Sample.button Sample.tg_bob "execute_group_share_final")
                   Sample.world _)).
  vm_compute. right. left. reflexivity.
Defined.

(** Bob presses the claim button of Ann's promotion. *)
Lemma claim_button_pays_witness :
  let d' := w_db (button_handler Sample.env
                    (Sample.button Sample.tg_bob "claim_1_1") Sample.world).1 in
  credits <$> users d' !! 2 = Some 6
  /\ budget <$> promotions d' !! 1 = Some 2
  /\ clicks_received <$> users d' !! 1 = Some 1.
Proof.
  destruct (claim_button_pays Sample.env (Sample.button Sample.tg_bob "claim_1_1")
              "claim_1_1" Sample.world Sample.bob 1 1) as [Hd _].
  - reflexivity.
  - reflexivity.
  - reflexivity.
  - reflexivity.
  - by eexists.
  - reflexivity.
  - reflexivity.
  - reflexivity.
  - simpl. rewrite Hd. repeat split; reflexivity.
Defined.

(** After Bob's claim the promotion, funded with 3, is still offered to
    Cat. *)
Lemma claim_retires_task_witness :
  let d' := w_db (handle_claim_promo Sample.env
                    (Sample.button Sample.tg_bob "claim_1_1") "claim_1_1"
                    Sample.world).1 in
  get_random_promotion [] 3 d' = Some (promo_row (1, set_budget 2 Sample.promo))
  /\ 3 <> 2
  /\ exists p, promotions Sample.db !! 1 = Some p /\ 1 < budget p.
Proof.
  split; [vm_compute; reflexivity|].
  apply (claim_retires_task Sample.env (Sample.button Sample.tg_bob "claim_1_1")
           "claim_1_1" Sample.world 1 1 [] 3
           (promo_row (1, set_budget 2 Sample.promo))).
  - reflexivity.
  - reflexivity.
  - reflexivity.
  - reflexivity.
  - vm_compute; reflexivity.
  - reflexivity.
Defined.

(** Group -100 is known: adding the bot to it twice more pays nobody. *)
Lemma known_group_never_pays_witness :
  users (gw_db (new_group_members
                  [(SampleGroup.api, SampleGroup.added (-100));
                   (SampleGroup.api, SampleGroup.added (-100))]
                  SampleGroup.world))
  = users Sample.db.
Proof.
  refine (proj1 (known_group_never_pays
                   [(SampleGroup.api, SampleGroup.added (-100));
                    (SampleGroup.api, SampleGroup.added (-100))]
                   SampleGroup.world (-100) (mkGroup 1 true) _ eq_refl)).
  repeat constructor.
Defined.

(** Bob adds the bot, as an administrator, to a new group of 1000. *)
Lemma new_group_member_first_add_witness :
  let d' := gw_db (new_group_member SampleGroup.api (SampleGroup.added (-400))
                     SampleGroup.world).1 in
  credits <$> users d' !! 2 = Some 10
  /\ groups d' !! (-400) = Some (mkGroup 2 true).
Proof.
  destruct (new_group_member_first_add SampleGroup.api (SampleGroup.added (-400))
              SampleGroup.world 900 "administrator") as [Hd _].
  - reflexivity.
  - left.
  - reflexivity.
  - reflexivity.
  - reflexivity.
  - simpl. rewrite Hd. split; reflexivity.
Defined.

(** Dan, who never started the bot, sends a budget. *)
Lemma get_promotion_budget_raises_witness :
  get_promotion_budget Sample.env (Sample.message Sample.tg_dan "3") Sample.world
  = (Sample.world, Raise Py.TypeError).
Proof.
  apply (get_promotion_budget_raises Sample.env (Sample.message Sample.tg_dan "3")
           "3" 4 500 Sample.world 3).
  - reflexivity.
  - reflexivity.
  - exact I.
Defined.

(** Ann shares to the two groups that have the bot as administrator. *)
Lemma execute_group_share_debits_witness :
  daily_promo_runs <$>
    users (w_db (execute_group_share Sample.env
                   (Sample.button Sample.tg_ann "execute_group_share_final")
                   Sample.world).1) !! 1
  = Some 4.
Proof.
  rewrite (execute_group_share_debits Sample.env
             (Sample.button Sample.tg_ann "execute_group_share_final")
             Sample.world Sample.ann).
  - reflexivity.
  - reflexivity.
  - reflexivity.
  - reflexivity.
  - vm_compute; discriminate.
  - by eexists.
Defined.

Lemma verify_callback_data_decodes_witness :
  verify_token Sample.env "verify_7_-1001_3" = Some (7, -1001, 3).
Proof.
  exact (proj2 (verify_callback_data_decodes Sample.env 7 (-1001) 3
                  "verify_7_-1001_3" eq_refl)).
Defined.
